(** * GEODES front-end: the PDB sanitizer and the batch loop

    A shallow embedding of the repository's own logic:

    - [App.clean_pdb_for_dssp]                (src/app.py, lines 17-47)
    - [RobustPdbCleaner.clean_pdb_for_mkdssp] (src/robust_pdb_cleaner.py,
      lines 16-83; its line-filtering stage, lines 54-77, is
      [clean_pdb_for_mkdssp_lines]; the Biopython re-serialisation before
      it is an external library and is a parameter)
    - [RobustPdbCleaner.clean_pdb_minimal]    (src/robust_pdb_cleaner.py,
      lines 86-115)
    - [Batch.run_analysis]                    (src/app.py, lines 137-180: the
      "Run Analysis" batch loop)

    Lines are Python [str] values, modelled as [string]; a file is the
    string of its characters; [readlines]/[writelines] are modelled in
    [TextIO]; a raised exception is the [Raise] branch of [Py.result]. *)

From Stdlib Require Import Ascii String.
From stdpp Require Import base list strings gmap.

Local Open Scope string_scope.
Local Open Scope list_scope.

(** ** Python values used by the sources *)

Module Py.

(** ['\n'] and ['\r']. *)
Definition LF : ascii := "010"%char.
Definition CR : ascii := "013"%char.
Definition nl : string := String LF EmptyString.

(** [line.startswith(prefixes)] with a tuple of prefixes (a single
    prefix is the one-element tuple): true when one of them is a
    prefix of [line]. *)
Definition startswith (line : string) (prefixes : list string) : bool :=
  existsb (λ p, String.prefix p line) prefixes.

Inductive exn : Type :=
| ValueError (msg : string)
| FileNotFoundError (filename : string).

Inductive result (A : Type) : Type :=
| Ok (a : A)
| Raise (e : exn).
Global Arguments Ok {A} a.
Global Arguments Raise {A} e.

Definition is_ok {A} (r : result A) : bool :=
  match r with Ok _ => true | Raise _ => false end.

End Py.
Import Py.

(** ** Text files: [open(path, 'r').readlines()] and [f.writelines(..)] *)

Module TextIO.

(** Universal-newline translation done by [open(path, 'r')]: ["\r\n"]
    and a lone ["\r"] are both read as ["\n"]. *)
Fixpoint translate_newlines (s : string) : string :=
  match s with
  | EmptyString => EmptyString
  | String c s' =>
      if Ascii.eqb c CR then
        match s' with
        | String c' s'' =>
            if Ascii.eqb c' LF then String LF (translate_newlines s'')
            else String LF (translate_newlines s')
        | EmptyString => String LF EmptyString
        end
      else String c (translate_newlines s')
  end.

(** Splitting after every ['\n'], keeping the terminator; the last
    line has none when the text does not end with one. *)
Fixpoint splitlines_keepends (s : string) : list string :=
  match s with
  | EmptyString => []
  | String c s' =>
      if Ascii.eqb c LF then String c EmptyString :: splitlines_keepends s'
      else match splitlines_keepends s' with
           | [] => [String c EmptyString]
           | l :: ls => String c l :: ls
           end
  end.

Definition readlines (content : string) : list string :=
  splitlines_keepends (translate_newlines content).

(** [f.writelines(lines)]: the lines are written one after the other,
    nothing is added between them (and ['\n'] is written as it is, the
    line separator of the platform the application runs on). *)
Definition writelines (lines : list string) : string :=
  foldr String.append EmptyString lines.

(** After a ['\r'] the translation goes on behind the ['\n'] that may
    follow it. *)
Definition after_CR (s : string) : string :=
  match s with
  | String c' s'' => if Ascii.eqb c' LF then s'' else s
  | EmptyString => EmptyString
  end.

(** A line as [readlines] returns it from a text that ends with a line
    terminator: some characters other than ['\n'] and ['\r'], then
    ['\n']. *)
Fixpoint is_text_line (line : string) : bool :=
  match line with
  | EmptyString => false
  | String c rest =>
      match rest with
      | EmptyString => Ascii.eqb c LF
      | String _ _ =>
          negb (Ascii.eqb c LF) && negb (Ascii.eqb c CR) && is_text_line rest
      end
  end.

Fixpoint no_CR (s : string) : bool :=
  match s with
  | EmptyString => true
  | String c s' => negb (Ascii.eqb c CR) && no_CR s'
  end.

(** The text is empty or its last character is ['\n']. *)
Fixpoint newline_terminated (s : string) : bool :=
  match s with
  | EmptyString => true
  | String c s' =>
      match s' with
      | EmptyString => Ascii.eqb c LF
      | String _ _ => newline_terminated s'
      end
  end.

End TextIO.

(** ** The record literals of the sources *)

(** ['HEADER    PROTEIN                                 01-JAN-00   XXXX\n'],
    the same literal at app.py:29, robust_pdb_cleaner.py:72 and :98. *)
Definition HEADER_LINE : string :=
  "HEADER    PROTEIN                                 01-JAN-00   XXXX" +:+ nl.

(** ['END\n'] (app.py:41, robust_pdb_cleaner.py:77 and :110). *)
Definition END_LINE : string := "END" +:+ nl.

(** ** src/app.py *)

Module App.

(** The two locals of the loop of [clean_pdb_for_dssp]. *)
Record loop_state : Type := LoopState {
  cleaned_lines : list string;
  has_atoms : bool
}.

(** One iteration of [for line in lines:] (app.py:32-35). *)
Definition loop_body (st : loop_state) (line : string) : loop_state :=
  if startswith line ["ATOM  "; "HETATM"] then
    {| cleaned_lines := cleaned_lines st ++ [line]; has_atoms := true |}
  else st.

(** [clean_pdb_for_dssp] between [f.readlines()] and
    [f.writelines(cleaned_lines)] (app.py:25-41). *)
Definition clean_pdb_for_dssp_lines (lines : list string)
  : result (list string) :=
  let st0 := {| cleaned_lines := [HEADER_LINE]; has_atoms := false |} in
  let st := foldl loop_body st0 lines in
  if negb (has_atoms st) then
    Raise (ValueError "PDB file contains no ATOM records!")
  else
    Ok (cleaned_lines st ++ [END_LINE]).

(** [clean_pdb_for_dssp(input_path, output_path)] on the text of the
    input file, as decoded by [open(input_path, 'r')]: the text written
    to the output file, or the exception raised before anything is
    written. The decoding itself, which can raise, is the step before
    this one ([OpenText.clean_pdb_for_dssp]). *)
Definition clean_pdb_for_dssp (content : string) : result string :=
  match clean_pdb_for_dssp_lines (TextIO.readlines content) with
  | Ok out => Ok (TextIO.writelines out)
  | Raise e => Raise e
  end.

End App.

(** ** src/robust_pdb_cleaner.py *)

Module RobustPdbCleaner.

(** *** [clean_pdb_minimal] (lines 86-115) *)

Record loop_state : Type := LoopState {
  cleaned_lines : list string;
  has_atoms : bool
}.

Definition loop_body (st : loop_state) (line : string) : loop_state :=
  if startswith line ["ATOM  "; "HETATM"] then
    {| cleaned_lines := cleaned_lines st ++ [line]; has_atoms := true |}
  else st.

Definition clean_pdb_minimal_lines (lines : list string)
  : result (list string) :=
  let st0 := {| cleaned_lines := [HEADER_LINE]; has_atoms := false |} in
  let st := foldl loop_body st0 lines in
  if negb (has_atoms st) then
    Raise (ValueError "No ATOM records found in PDB file!")
  else
    Ok (cleaned_lines st ++ [END_LINE]).

(** [clean_pdb_minimal(input_path, output_path)] on the decoded text of
    the input file ([OpenText.clean_pdb_minimal] has the decoding). *)
Definition clean_pdb_minimal (content : string) : result string :=
  match clean_pdb_minimal_lines (TextIO.readlines content) with
  | Ok out => Ok (TextIO.writelines out)
  | Raise e => Raise e
  end.

(** *** [clean_pdb_for_mkdssp], the line-filtering stage (lines 54-77) *)

Record filter_state : Type := FilterState {
  kept_lines : list string;
  has_header : bool
}.

(** One iteration of [for line in lines:] (lines 58-68). *)
Definition filter_body (st : filter_state) (line : string) : filter_state :=
  if startswith line ["HEADER"] then
    {| kept_lines := kept_lines st ++ [line]; has_header := true |}
  else if startswith line ["ATOM"; "HETATM"; "TER"; "END"; "MODEL"; "ENDMDL"] then
    {| kept_lines := kept_lines st ++ [line]; has_header := has_header st |}
  else if startswith line ["CRYST1"; "ORIGX"; "SCALE"; "MTRIX"] then
    {| kept_lines := kept_lines st ++ [line]; has_header := has_header st |}
  else st.

(** The loop alone: the retained lines and the [has_header] flag. *)
Definition filter_loop (lines : list string) : filter_state :=
  foldl filter_body {| kept_lines := []; has_header := false |} lines.

(** [if not has_header: cleaned_lines.insert(0, header)] (lines 71-73). *)
Definition add_header (st : filter_state) : list string :=
  if negb (has_header st) then HEADER_LINE :: kept_lines st
  else kept_lines st.

(** The test of line 76:
    [not cleaned_lines or not cleaned_lines[-1].startswith('END')]. *)
Definition needs_end (cleaned : list string) : bool :=
  match last cleaned with
  | None => true
  | Some l => negb (startswith l ["END"])
  end.

(** [if ...: cleaned_lines.append('END\n')] (lines 76-77). *)
Definition ensure_end (cleaned : list string) : list string :=
  if needs_end cleaned then cleaned ++ [END_LINE] else cleaned.

(** Lines 54-77: from the lines read back to the lines written. This
    stage raises nothing. *)
Definition clean_pdb_for_mkdssp_lines (lines : list string) : list string :=
  ensure_end (add_header (filter_loop lines)).

Section Biopython.

(** Lines 33-48 are Biopython's: [PDBParser.get_structure] on the input
    file, then [PDBIO.save] to the output file, with [CleanSelect] unless
    [keep_hetatm]. The text it leaves in the output file, or the
    exception it raises, is taken as given. *)
Variable parse_and_save : string → bool → result string.

(** [clean_pdb_for_mkdssp(input_path, output_path, keep_hetatm)] on the
    content of the input file. *)
Definition clean_pdb_for_mkdssp (content : string) (keep_hetatm : bool)
  : result string :=
  match parse_and_save content keep_hetatm with
  | Raise e => Raise e
  | Ok saved =>
      Ok (TextIO.writelines (clean_pdb_for_mkdssp_lines (TextIO.readlines saved)))
  end.

End Biopython.

End RobustPdbCleaner.

(** ** The "Run Analysis" batch of src/app.py (lines 137-180) *)

Module Batch.

(** An uploaded file: [f.name] and [f.getbuffer()]. The bytes are read
    back as text by [clean_pdb_for_dssp]; PDB files are ASCII and the
    decoding is taken as the identity. *)
Record uploaded_file : Type := UploadedFile {
  name : string;
  getbuffer : string
}.

(** What the page shows, in order. *)
Inductive ui_event : Type :=
| InfoProcessing (n : nat)                  (* line 138 *)
| ProgressStart                             (* line 142: st.progress(0) *)
| Progress (done total : nat)               (* line 157: (i + 1) / len *)
| ErrorFailed (fname : string) (e : exn)    (* line 160 *)
| ErrorNoneProcessed                        (* line 164 *)
| InfoRunning                               (* line 173 *)
| SuccessComplete.                          (* line 180 *)

(** The state the loop works on. A directory maps a file name to the
    content of the file; both directories are recreated empty before
    the loop (lines 132-135). *)
Record batch_state : Type := BatchState {
  raw_dir : gmap string string;
  input_dir : gmap string string;
  processed_count : nat;
  ui : list ui_event
}.

(** [open(path, 'r')] in a directory. *)
Definition read_file (dir : gmap string string) (fname : string)
  : result string :=
  match dir !! fname with
  | Some content => Ok content
  | None => Raise (FileNotFoundError fname)
  end.

(** [clean_pdb_for_dssp(raw_path, cleaned_path)] on the two
    directories: the new [input_dir], or the exception. Nothing is
    written when the function raises (the [raise] of app.py:38 comes
    before the [open(output_path, 'w')] of app.py:44). *)
Definition clean_into (raw input : gmap string string) (fname : string)
  : result (gmap string string) :=
  match read_file raw fname with
  | Raise e => Raise e
  | Ok content =>
      match App.clean_pdb_for_dssp content with
      | Raise e => Raise e
      | Ok cleaned => Ok (<[fname := cleaned]> input)
      end
  end.

(** The body of [for i, f in enumerate(uploaded_files):] with its
    [try]/[except Exception]/[continue] (lines 145-161). *)
Definition process_file (total i : nat) (f : uploaded_file)
    (st : batch_state) : batch_state :=
  let raw := <[name f := getbuffer f]> (raw_dir st) in
  match clean_into raw (input_dir st) (name f) with
  | Ok input =>
      {| raw_dir := raw; input_dir := input;
         processed_count := S (processed_count st);
         ui := ui st ++ [Progress (i + 1) total] |}
  | Raise e =>
      {| raw_dir := raw; input_dir := input_dir st;
         processed_count := processed_count st;
         ui := ui st ++ [ErrorFailed (name f) e] |}
  end.

Fixpoint batch_loop (total i : nat) (files : list uploaded_file)
    (st : batch_state) : batch_state :=
  match files with
  | [] => st
  | f :: rest => batch_loop total (S i) rest (process_file total i f st)
  end.

(** Lines 138-144 and the loop. *)
Definition process_uploads (uploaded_files : list uploaded_file)
  : batch_state :=
  batch_loop (length uploaded_files) 0 uploaded_files
    {| raw_dir := ∅; input_dir := ∅; processed_count := 0;
       ui := [InfoProcessing (length uploaded_files); ProgressStart] |}.

(** Whether the sanitizer accepts an uploaded file, and what a
    successful file leaves in a directory. *)
Definition sanitizes (f : uploaded_file) : bool :=
  is_ok (App.clean_pdb_for_dssp (getbuffer f)).

Definition store_cleaned (dir : gmap string string) (f : uploaded_file)
  : gmap string string :=
  match App.clean_pdb_for_dssp (getbuffer f) with
  | Ok cleaned => <[name f := cleaned]> dir
  | Raise _ => dir
  end.

Section Calculator.

(** The collaborators of lines 167-178, which are not code of this
    repository: the parsed configuration ([ast.literal_eval] of the
    two inputs and [run_config], or the exception they raise) and
    [DescCalculator(..).calc_all] on the directory it is handed. *)
Context {Config Table : Type}.
Variable parse_config : result Config.
Variable calc_all : Config → gmap string string → result Table.

Inductive outcome : Type :=
| Stopped                      (* [st.stop()], line 165 *)
| AnalysisError (e : exn)      (* the outer [except], line 192 *)
| AnalysisComplete (df : Table).

(** A run: the final state, the directories [calc_all] was called
    on (in order), and how the run ended. *)
Record run : Type := Run {
  final : batch_state;
  calculator_calls : list (gmap string string);
  ending : outcome
}.

Definition say (e : ui_event) (st : batch_state) : batch_state :=
  {| raw_dir := raw_dir st; input_dir := input_dir st;
     processed_count := processed_count st; ui := ui st ++ [e] |}.

(** Lines 137-180. *)
Definition run_analysis (uploaded_files : list uploaded_file) : run :=
  let st := process_uploads uploaded_files in
  if Nat.eqb (processed_count st) 0 then
    {| final := say ErrorNoneProcessed st;
       calculator_calls := [];
       ending := Stopped |}
  else
    match parse_config with
    | Raise e =>
        {| final := st; calculator_calls := []; ending := AnalysisError e |}
    | Ok cfg =>
        let st := say InfoRunning st in
        match calc_all cfg (input_dir st) with
        | Raise e =>
            {| final := st; calculator_calls := [input_dir st];
               ending := AnalysisError e |}
        | Ok df =>
            {| final := say SuccessComplete st;
               calculator_calls := [input_dir st];
               ending := AnalysisComplete df |}
        end
    end.

End Calculator.

End Batch.

(** ** The vocabulary of the specification *)

Module Spec.

(** Record kinds are read off the first six characters of a line
    (spec, sections 3 and 6). *)
Definition is_header (line : string) : bool :=
  String.prefix "HEADER" line.

(** A coordinate record: [ATOM] padded to six characters, or
    [HETATM]. *)
Definition is_coordinate (line : string) : bool :=
  String.prefix "ATOM  " line || String.prefix "HETATM" line.

Definition is_blank (c : ascii) : bool :=
  Ascii.eqb c " "%char || Ascii.eqb c LF || Ascii.eqb c CR.

Fixpoint all_blank (s : string) : bool :=
  match s with
  | EmptyString => true
  | String c s' => is_blank c && all_blank s'
  end.

(** An [END] record: the six-character field is [END] and blanks (or
    the line stops before column six). [ENDMDL] is another kind. *)
Definition is_end (line : string) : bool :=
  String.prefix "END" line && all_blank (String.substring 3 3 line).

Definition count (p : string → bool) (doc : list string) : nat :=
  length (filter (λ line, p line = true) doc).
Global Arguments count : simpl never.

(** The three invariants of a Sanitized Document (spec, section 3). *)
Definition header_first_and_unique (doc : list string) : bool :=
  match head doc with Some h => is_header h | None => false end
  && Nat.eqb (count is_header doc) 1.

Definition has_coordinates (doc : list string) : bool :=
  Nat.leb 1 (count is_coordinate doc).

Definition end_last_and_unique (doc : list string) : bool :=
  match last doc with Some e => is_end e | None => false end
  && Nat.eqb (count is_end doc) 1.

Definition sanitized_document (doc : list string) : bool :=
  header_first_and_unique doc && has_coordinates doc
  && end_last_and_unique doc.

(** The coordinate records of an input, in their order. *)
Definition coordinate_lines (lines : list string) : list string :=
  filter (λ line, is_coordinate line = true) lines.

(** The record kinds permissive mode retains (section 4.1), by the
    prefixes the permissive filter tests. *)
Definition is_retained (line : string) : bool :=
  startswith line ["HEADER"]
  || startswith line ["ATOM"; "HETATM"; "TER"; "END"; "MODEL"; "ENDMDL"]
  || startswith line ["CRYST1"; "ORIGX"; "SCALE"; "MTRIX"].

Definition retained_lines (lines : list string) : list string :=
  filter (λ line, is_retained line = true) lines.

(** What the retained lines of an input must look like for the
    permissive output to be a Sanitized Document: at most one HEADER
    record, and then in first place; no END record except in last
    place; and a last line that begins with [END] is an END record. *)
Definition permissive_well_formed (kept : list string) : bool :=
  (Nat.eqb (count is_header kept) 0 || header_first_and_unique kept)
  && match last kept with
     | Some e =>
         if String.prefix "END" e then end_last_and_unique kept
         else Nat.eqb (count is_end kept) 0
     | None => true
     end.

(** [sanitize(records, mode)] of section 4.1 on the three
    implementations the sources have: two of minimal mode, one of
    permissive mode (whose filtering stage has no [raise]). *)
Inductive mode : Type := Minimal | Permissive.

Inductive implementation : Type :=
| CleanPdbForDssp      (* src/app.py *)
| CleanPdbMinimal      (* src/robust_pdb_cleaner.py *)
| CleanPdbForMkdssp.   (* src/robust_pdb_cleaner.py *)

Definition mode_of (impl : implementation) : mode :=
  match impl with
  | CleanPdbForDssp | CleanPdbMinimal => Minimal
  | CleanPdbForMkdssp => Permissive
  end.

Definition sanitize (impl : implementation) (lines : list string)
  : result (list string) :=
  match impl with
  | CleanPdbForDssp => App.clean_pdb_for_dssp_lines lines
  | CleanPdbMinimal => RobustPdbCleaner.clean_pdb_minimal_lines lines
  | CleanPdbForMkdssp => Ok (RobustPdbCleaner.clean_pdb_for_mkdssp_lines lines)
  end.

End Spec.

(** ** Sample inputs *)

Module Samples.

Definition atom1 : string := "ATOM      1  N   MET A   1" +:+ nl.
Definition atom2 : string := "ATOM      2  CA  MET A   1" +:+ nl.
Definition hetatm : string := "HETATM    3  O   HOH A   2" +:+ nl.
Definition remark : string := "REMARK   2 RESOLUTION." +:+ nl.
Definition helix : string := "HELIX    1" +:+ nl.
Definition endmdl : string := "ENDMDL" +:+ nl.
Definition model1 : string := "MODEL        1" +:+ nl.
Definition header_a : string := "HEADER    HYDROLASE" +:+ nl.
Definition header_b : string := "HEADER    TRANSFERASE" +:+ nl.
(** A line that begins with [ATOM] but whose six-character field is
    not [ATOM  ]. *)
Definition atomic : string := "ATOMIC NUMBER" +:+ nl.

Definition good1 : Batch.uploaded_file :=
  {| Batch.name := "a.pdb"; Batch.getbuffer := atom1 +:+ remark |}.
Definition empty2 : Batch.uploaded_file :=
  {| Batch.name := "b.pdb"; Batch.getbuffer := EmptyString |}.
Definition good3 : Batch.uploaded_file :=
  {| Batch.name := "c.pdb"; Batch.getbuffer := hetatm |}.

(** A second upload under the name of [good1], without coordinates. *)
Definition bad1 : Batch.uploaded_file :=
  {| Batch.name := "a.pdb"; Batch.getbuffer := remark |}.

(** A file with Windows line endings and an annotation line. *)
Definition crlf_file : string :=
  "REMARK   2" +:+ String CR nl +:+ "ATOM      1  N   MET A   1" +:+ String CR nl.

(** A file whose only line, an ATOM record, has no line terminator. *)
Definition unterminated : string := "ATOM      1  N   MET A   1".

Definition two_headers : list string := [header_a; header_b; atom1].
Definition no_coordinates : list string := [remark; helix].
Definition ends_with_endmdl : list string := [model1; atom1; endmdl].
Definition with_atomic : list string := [atomic; atom1].

End Samples.

(** ** The lines of a text file *)

Module TextLines.

(** A last line that has no terminator: some characters, none of them
    ['\n'] or ['\r']. *)
Fixpoint is_open_line (line : string) : bool :=
  match line with
  | EmptyString => false
  | String c rest =>
      negb (Ascii.eqb c LF) && negb (Ascii.eqb c CR)
      && match rest with
         | EmptyString => true
         | String _ _ => is_open_line rest
         end
  end.

(** What [readlines] returns: terminated lines, and possibly one line
    without terminator at the end. *)
Fixpoint well_split (lines : list string) : bool :=
  match lines with
  | [] => true
  | line :: rest =>
      match rest with
      | [] => TextIO.is_text_line line || is_open_line line
      | _ :: _ => TextIO.is_text_line line && well_split rest
      end
  end.

End TextLines.

(** ** The preview selector of src/app.py (lines 79-83, 93) *)

Module Page.

(** [file_names = [f.name for f in uploaded_files]] (line 79). *)
Definition file_names (uploaded_files : list Batch.uploaded_file)
  : list string :=
  Batch.name <$> uploaded_files.

(** [next(f for f in uploaded_files if f.name == selected_file_name)]
    (line 83): the first file of that name; [None] stands for the
    [StopIteration] of an exhausted generator. *)
Fixpoint selected_file (uploaded_files : list Batch.uploaded_file)
    (selected_file_name : string) : option Batch.uploaded_file :=
  match uploaded_files with
  | [] => None
  | f :: rest =>
      if String.eqb (Batch.name f) selected_file_name then Some f
      else selected_file rest selected_file_name
  end.

(** What one pass of the batch loop shows for the file at index [i]. *)
Definition event_of (total i : nat) (f : Batch.uploaded_file)
  : Batch.ui_event :=
  match App.clean_pdb_for_dssp (Batch.getbuffer f) with
  | Ok _ => Batch.Progress (i + 1) total
  | Raise e => Batch.ErrorFailed (Batch.name f) e
  end.

(** What the loop leaves in [raw_dir] (lines 147-149). *)
Definition store_raw (dir : gmap string string) (f : Batch.uploaded_file)
  : gmap string string :=
  <[Batch.name f := Batch.getbuffer f]> dir.

End Page.

(** ** Scripts: what a call returns or raises, and what a tool run gives *)

Module Script.

(** A call returns, or raises an exception of some class with some
    message; the scripts catch [Exception] and tell [TimeoutExpired]
    apart by its class. *)
Inductive outcome (A : Type) : Type :=
| Returned (a : A)
| Threw (class message : string).
Global Arguments Returned {A} a.
Global Arguments Threw {A} class message.

(** The exceptions of the repository's own functions. *)
Definition of_result {A} (r : result A) : outcome A :=
  match r with
  | Ok a => Returned a
  | Raise (ValueError msg) => Threw "ValueError" msg
  | Raise (FileNotFoundError filename) => Threw "FileNotFoundError" filename
  end.

(** [subprocess.run(..., capture_output=True, text=True)]. *)
Record completed_process : Type := CompletedProcess {
  returncode : Z;
  stdout : string;
  stderr : string
}.

End Script.

(** ** The command line of src/robust_pdb_cleaner.py (lines 118-170) *)

Module CleanerMain.

Import Script.

Inductive printed_line : Type :=
| Usage                                  (* line 122 *)
| Cleaning (input_file : string)         (* line 128 *)
| Saved (output_file : string)           (* line 132 *)
| Testing                                (* line 135 *)
| MkdsspSucceeded                        (* line 145 *)
| MkdsspFailed (err : string)            (* lines 147-148 *)
| TryingMinimal                          (* line 151 *)
| MkdsspSucceededMinimal                 (* line 162 *)
| MkdsspStillFails (err : string)        (* lines 164-165 *)
| Error (class message : string).        (* lines 168-170 *)

(** A run of the script: its exit status, the files it leaves, what it
    printed, and the file contents [mkdssp] was run on, in order (what
    was at [output_file] at the time of each run). *)
Record run : Type := Run {
  exit_status : nat;
  files : gmap string string;
  printed : list printed_line;
  mkdssp_runs : list (option string)
}.

Section Tools.

(** Biopython's part of [clean_pdb_for_mkdssp] with [keep_hetatm=False]
    (parse, then save through [CleanSelect]): the text it saves, or the
    exception; and the [mkdssp] binary run on what is at a path. *)
Variable parse_and_save : string → outcome string.
Variable mkdssp : option string → outcome completed_process.

(** [clean_pdb_for_mkdssp(input_file, output_file)] on the files: the
    structure is parsed from [input_file], saved to [output_file], read
    back from there, filtered and written to [output_file] again. *)
Definition clean_pdb_for_mkdssp (fs : gmap string string)
    (input_file output_file : string) : outcome (gmap string string) :=
  match fs !! input_file with
  | None => Threw "FileNotFoundError" input_file
  | Some content =>
      match parse_and_save content with
      | Threw c m => Threw c m
      | Returned saved =>
          let fs := <[output_file := saved]> fs in
          match fs !! output_file with
          | None => Threw "FileNotFoundError" output_file
          | Some text =>
              Returned
                (<[output_file :=
                     TextIO.writelines
                       (RobustPdbCleaner.clean_pdb_for_mkdssp_lines
                          (TextIO.readlines text))]> fs)
          end
      end
  end.

(** [clean_pdb_minimal(input_file, output_file)] on the files. *)
Definition clean_pdb_minimal (fs : gmap string string)
    (input_file output_file : string) : outcome (gmap string string) :=
  match fs !! input_file with
  | None => Threw "FileNotFoundError" input_file
  | Some content =>
      match of_result (RobustPdbCleaner.clean_pdb_minimal content) with
      | Threw c m => Threw c m
      | Returned cleaned => Returned (<[output_file := cleaned]> fs)
      end
  end.

(** The second half of the [try] block (lines 150-165). *)
Definition fallback (fs : gmap string string) (input_file output_file : string)
    (said : list printed_line) (runs : list (option string)) : run :=
  match clean_pdb_minimal fs input_file output_file with
  | Threw c m =>
      {| exit_status := 0; files := fs;
         printed := said ++ [Error c m]; mkdssp_runs := runs |}
  | Returned fs2 =>
      let runs := runs ++ [fs2 !! output_file] in
      match mkdssp (fs2 !! output_file) with
      | Threw c m =>
          {| exit_status := 0; files := fs2;
             printed := said ++ [Error c m]; mkdssp_runs := runs |}
      | Returned result =>
          {| exit_status := 0; files := fs2;
             printed :=
               said ++ (if Z.eqb (returncode result) 0
                        then [MkdsspSucceededMinimal]
                        else [MkdsspStillFails (stderr result)]);
             mkdssp_runs := runs |}
      end
  end.

(** Lines 118-170, from [sys.argv] and the files. *)
Definition main (argv : list string) (fs : gmap string string) : run :=
  match argv with
  | _ :: input_file :: output_file :: _ =>
      let said := [Cleaning input_file] in
      match clean_pdb_for_mkdssp fs input_file output_file with
      | Threw c m =>
          {| exit_status := 0; files := fs;
             printed := said ++ [Error c m]; mkdssp_runs := [] |}
      | Returned fs1 =>
          let said := said ++ [Saved output_file; Testing] in
          let runs := [fs1 !! output_file] in
          match mkdssp (fs1 !! output_file) with
          | Threw c m =>
              {| exit_status := 0; files := fs1;
                 printed := said ++ [Error c m]; mkdssp_runs := runs |}
          | Returned result =>
              if Z.eqb (returncode result) 0 then
                {| exit_status := 0; files := fs1;
                   printed := said ++ [MkdsspSucceeded]; mkdssp_runs := runs |}
              else
                fallback fs1 input_file output_file
                  (said ++ [MkdsspFailed (stderr result); TryingMinimal]) runs
          end
      end
  | _ =>
      {| exit_status := 1; files := fs; printed := [Usage]; mkdssp_runs := [] |}
  end.

End Tools.

End CleanerMain.

(** ** src/debug_dssp.py: [test_pdb_file] (lines 51-111) *)

Module DebugDssp.

Import Script.

Inductive printed_line : Type :=
| Banner (pdb_path : string)                    (* lines 53-55 *)
| NotFound (pdb_path : string)                  (* line 58 *)
| PreviewTitle                                  (* line 62 *)
| PreviewLine (number : nat) (text : string)    (* line 67 *)
| TestingDirect                                 (* line 70 *)
| MkdsspOk (output_length : nat)                (* lines 79-80 *)
| MkdsspFailed (code : Z) (out err : string)    (* lines 82-84 *)
| MkdsspTimedOut                                (* line 86 *)
| MkdsspError (message : string)                (* line 88 *)
| TestingBiopython                              (* line 91 *)
| TryingDssp                                    (* line 98 *)
| DsspSuccess (residues : nat)                  (* line 100 *)
| DsspFailed (message : string)                 (* line 103 *)
| TryingMkdssp                                  (* line 107 *)
| MkdsspSuccess (residues : nat)                (* line 109 *)
| MkdsspFailedToo (message : string).           (* line 111 *)

(** The external programs the function starts. *)
Inductive tool_call : Type :=
| RunMkdssp (file : option string)    (* [subprocess.run(['mkdssp', ...])] *)
| CallDSSP (dssp : string).           (* [DSSP(model, pdb_path, dssp=...)] *)

(** What a call of [test_pdb_file] does: the lines it prints, the
    programs it starts, and the exception it ends with, if any (class and
    message). *)
Record report : Type := Report {
  printed : list printed_line;
  calls : list tool_call;
  raised : option (string * string)
}.

Section Tools.

(** Taken as given: [str.rstrip()]; the [mkdssp] binary on the file;
    [PDBParser(QUIET=True).get_structure("test", pdb_path)[0]] on the
    content of the file; [len(DSSP(model, pdb_path, dssp=...))]; and the
    message of the [UnboundLocalError] raised by reading the local
    [model] before it was assigned. *)
Context {Model : Type}.
Variable rstrip : string → string.
Variable mkdssp : option string → outcome completed_process.
Variable get_model : string → outcome Model.
Variable DSSP : Model → string → string → outcome nat.
Variable unbound_model : string.

(** Iterating over [open(pdb_path, 'r')], from the bytes of the file: the
    lines the iterator yields and, when the bytes stop decoding, the
    [UnicodeDecodeError] that ends the iteration ([None] when the file is
    read to its end). *)
Variable iterate : string → list string * option (string * string).

(** [for i, line in enumerate(f): if i >= 10: break; print(...)]
    (lines 64-67), from index [i] on. *)
Fixpoint preview_loop (i : nat) (lines : list string) : list printed_line :=
  match lines with
  | [] => []
  | line :: rest =>
      if Nat.leb 10 i then []
      else PreviewLine (i + 1) (rstrip line) :: preview_loop (S i) rest
  end.

(** Lines 69-88. *)
Definition test_direct (content : string) : list printed_line :=
  TestingDirect ::
  match mkdssp (Some content) with
  | Returned result =>
      if Z.eqb (returncode result) 0
      then [MkdsspOk (String.length (stdout result))]
      else [MkdsspFailed (returncode result)
              (String.substring 0 500 (stdout result))
              (String.substring 0 500 (stderr result))]
  | Threw class message =>
      if String.eqb class "TimeoutExpired" then [MkdsspTimedOut]
      else [MkdsspError message]
  end.

(** Lines 90-111: what is printed and the [DSSP] calls made. When the
    first [try] fails before [model] is assigned, the [DSSP] call of the
    handler raises [UnboundLocalError] while its arguments are read. *)
Definition test_biopython (content : string)
  : list printed_line * list tool_call :=
  match get_model content with
  | Threw _ e =>
      ([TestingBiopython; DsspFailed e; TryingMkdssp;
        MkdsspFailedToo unbound_model], [])
  | Returned model =>
      match DSSP model content "dssp" with
      | Returned n =>
          ([TestingBiopython; TryingDssp; DsspSuccess n], [CallDSSP "dssp"])
      | Threw _ e =>
          ([TestingBiopython; TryingDssp; DsspFailed e; TryingMkdssp]
           ++ match DSSP model content "mkdssp" with
              | Returned n => [MkdsspSuccess n]
              | Threw _ e2 => [MkdsspFailedToo e2]
              end,
           [CallDSSP "dssp"; CallDSSP "mkdssp"])
      end
  end.

(** The preview loop of lines 63-67 is outside any [try]: the loop leaves
    at the eleventh line it is given; when the iterator raises before
    that, the exception ends [test_pdb_file]. *)
Definition preview_raises (yielded : list string * option (string * string))
  : option (string * string) :=
  if Nat.leb 11 (length yielded.1) then None else yielded.2.

(** [test_pdb_file(pdb_path)] on the files. *)
Definition test_pdb_file (fs : gmap string string) (pdb_path : string)
  : report :=
  match fs !! pdb_path with
  | None =>
      {| printed := [Banner pdb_path; NotFound pdb_path];
         calls := []; raised := None |}
  | Some bytes =>
      let yielded := iterate bytes in
      let shown := [Banner pdb_path; PreviewTitle]
                   ++ preview_loop 0 yielded.1 in
      match preview_raises yielded with
      | Some e => {| printed := shown; calls := []; raised := Some e |}
      | None =>
          let bio := test_biopython bytes in
          {| printed := shown ++ test_direct bytes ++ bio.1;
             calls := RunMkdssp (Some bytes) :: bio.2;
             raised := None |}
      end
  end.

End Tools.

End DebugDssp.

(** ** Opening a file as text *)

Module OpenText.

Import Script.

Section Decode.

(** [open(input_path, 'r')] and [f.readlines()] first decode the bytes of
    the file with the encoding of the locale: [decode] gives the text, or
    the [UnicodeDecodeError]. It is the first thing both minimal
    functions do (app.py:22-23, robust_pdb_cleaner.py:91-92). *)
Variable decode : string → outcome string.

(** [clean_pdb_for_dssp] from the bytes of the input file: the text
    written, or the exception raised. *)
Definition clean_pdb_for_dssp (bytes : string) : outcome string :=
  match decode bytes with
  | Threw c m => Threw c m
  | Returned content => of_result (App.clean_pdb_for_dssp content)
  end.

(** [clean_pdb_minimal] from the bytes of the input file. *)
Definition clean_pdb_minimal (bytes : string) : outcome string :=
  match decode bytes with
  | Threw c m => Threw c m
  | Returned content => of_result (RobustPdbCleaner.clean_pdb_minimal content)
  end.

End Decode.

End OpenText.

(** ** What Biopython saves *)

Module PdbIO.

(** ['END   \n'], the line [PDBIO.save] closes the file with. *)
Definition END_SAVED : string := "END   " +:+ nl.

(** The lines [PDBIO.save] writes before it: ATOM and HETATM lines, a TER
    line after a chain, and MODEL and ENDMDL lines around each model when
    the structure has several. *)
Definition body_line (line : string) : bool :=
  Spec.is_coordinate line || String.prefix "TER" line
  || String.prefix "MODEL" line || String.prefix "ENDMDL" line.

End PdbIO.

(** ** Sample tools *)

Module ToolSamples.

Import Script.

(** A re-serialisation that saves the text it was given. *)
Definition save_as_is (content : string) : outcome string := Returned content.

(** An [mkdssp] that rejects every file. *)
Definition mkdssp_rejects (file : option string) : outcome completed_process :=
  Returned {| returncode := 1; stdout := EmptyString; stderr := "error" |}.

Definition one_file : gmap string string := {[ "in.pdb" := Samples.remark ]}.

(** What [PDBIO.save] writes for one chain of two atoms. *)
Definition saved_chain : list string :=
  [Samples.atom1; Samples.atom2; "TER       3      MET A   1" +:+ Py.nl].

(** A decoder that accepts every file but the one made of the byte 255. *)
Definition decode_but_255 (bytes : string) : outcome string :=
  if String.eqb bytes (String "255"%char EmptyString)
  then Threw "UnicodeDecodeError" "invalid start byte"
  else Returned bytes.

(** An iterator that yields the lines of the file and never raises, and
    one that raises at once. *)
Definition iterate_all (bytes : string)
  : list string * option (string * string) :=
  (TextIO.readlines bytes, None).

Definition iterate_fails (bytes : string)
  : list string * option (string * string) :=
  ([], Some ("UnicodeDecodeError", "invalid start byte")).

End ToolSamples.

Import Spec.

(** * Properties *)

(** ** The loops as filters *)

Lemma startswith_coordinate line :
  startswith line ["ATOM  "; "HETATM"] = is_coordinate line.
Proof.
  unfold startswith, is_coordinate; simpl. by rewrite orb_false_r.
Qed.

Lemma coordinate_lines_snoc lines line :
  coordinate_lines (lines ++ [line]) =
  coordinate_lines lines ++ (if is_coordinate line then [line] else []).
Proof.
  unfold coordinate_lines. rewrite filter_app. f_equal.
  rewrite filter_cons, filter_nil.
  destruct (is_coordinate line); by case_decide.
Qed.

Lemma app_loop_spec lines st :
  foldl App.loop_body st lines =
  {| App.cleaned_lines := App.cleaned_lines st ++ coordinate_lines lines;
     App.has_atoms :=
       App.has_atoms st || negb (bool_decide (coordinate_lines lines = [])) |}.
Proof.
  revert st. induction lines as [|line lines IH] using rev_ind; intros st.
  - destruct st; simpl. by rewrite app_nil_r, orb_false_r.
  - rewrite foldl_snoc, IH, coordinate_lines_snoc.
    unfold App.loop_body. rewrite startswith_coordinate.
    destruct (is_coordinate line) eqn:Hc; simpl.
    + rewrite app_assoc. f_equal.
      rewrite bool_decide_eq_false_2; [by rewrite orb_true_r|].
      by destruct (coordinate_lines lines).
    + by rewrite app_nil_r.
Qed.

Lemma robust_loop_spec lines st :
  foldl RobustPdbCleaner.loop_body st lines =
  {| RobustPdbCleaner.cleaned_lines :=
       RobustPdbCleaner.cleaned_lines st ++ coordinate_lines lines;
     RobustPdbCleaner.has_atoms :=
       RobustPdbCleaner.has_atoms st
       || negb (bool_decide (coordinate_lines lines = [])) |}.
Proof.
  revert st. induction lines as [|line lines IH] using rev_ind; intros st.
  - destruct st; simpl. by rewrite app_nil_r, orb_false_r.
  - rewrite foldl_snoc, IH, coordinate_lines_snoc.
    unfold RobustPdbCleaner.loop_body. rewrite startswith_coordinate.
    destruct (is_coordinate line) eqn:Hc; simpl.
    + rewrite app_assoc. f_equal.
      rewrite bool_decide_eq_false_2; [by rewrite orb_true_r|].
      by destruct (coordinate_lines lines).
    + by rewrite app_nil_r.
Qed.

(** Minimal mode in closed form, for both implementations. *)
Lemma clean_pdb_for_dssp_lines_eq lines :
  App.clean_pdb_for_dssp_lines lines =
  if bool_decide (coordinate_lines lines = []) then
    Raise (ValueError "PDB file contains no ATOM records!")
  else Ok (HEADER_LINE :: coordinate_lines lines ++ [END_LINE]).
Proof.
  unfold App.clean_pdb_for_dssp_lines. rewrite app_loop_spec. simpl.
  rewrite negb_involutive. by case_bool_decide.
Qed.

Lemma clean_pdb_minimal_lines_eq lines :
  RobustPdbCleaner.clean_pdb_minimal_lines lines =
  if bool_decide (coordinate_lines lines = []) then
    Raise (ValueError "No ATOM records found in PDB file!")
  else Ok (HEADER_LINE :: coordinate_lines lines ++ [END_LINE]).
Proof.
  unfold RobustPdbCleaner.clean_pdb_minimal_lines. rewrite robust_loop_spec.
  simpl. rewrite negb_involutive. by case_bool_decide.
Qed.

(** ** Record kinds exclude one another *)

Lemma prefix_cons_inv a p line :
  String.prefix (String a p) line = true →
  ∃ rest, line = String a rest ∧ String.prefix p rest = true.
Proof.
  destruct line as [|b rest]; simpl; [done|].
  destruct (Ascii.ascii_dec a b) as [->|]; [eauto|done].
Qed.

Lemma is_coordinate_first line :
  is_coordinate line = true →
  ∃ rest, line = String "A" rest ∨ line = String "H" (String "E" (String "T" rest)).
Proof.
  unfold is_coordinate. intros [H|H]%orb_true_iff.
  - apply prefix_cons_inv in H as (rest & -> & _). eauto.
  - apply prefix_cons_inv in H as (r1 & -> & H).
    apply prefix_cons_inv in H as (r2 & -> & H).
    apply prefix_cons_inv in H as (r3 & -> & H). eauto.
Qed.

Lemma coordinate_not_header line :
  is_coordinate line = true → is_header line = false.
Proof. intros [rest [-> | ->]]%is_coordinate_first; reflexivity. Qed.

Lemma coordinate_not_END_prefix line :
  is_coordinate line = true → String.prefix "END" line = false.
Proof. intros [rest [-> | ->]]%is_coordinate_first; reflexivity. Qed.

Lemma is_end_END_prefix line :
  is_end line = true → String.prefix "END" line = true.
Proof. unfold is_end. by intros [? _]%andb_true_iff. Qed.

Lemma coordinate_not_end line :
  is_coordinate line = true → is_end line = false.
Proof.
  intros H%coordinate_not_END_prefix. unfold is_end. by rewrite H.
Qed.

Lemma header_not_coordinate line :
  is_header line = true → is_coordinate line = false.
Proof.
  intros H. destruct (is_coordinate line) eqn:Hc; [|done].
  apply coordinate_not_header in Hc. congruence.
Qed.

Lemma count_length p doc :
  count p doc = length (filter (λ line, p line = true) doc).
Proof. reflexivity. Qed.

Lemma count_app p doc1 doc2 : count p (doc1 ++ doc2) = count p doc1 + count p doc2.
Proof. unfold count. by rewrite filter_app, length_app. Qed.

Lemma count_cons p line doc :
  count p (line :: doc) = (if p line then 1 else 0) + count p doc.
Proof.
  unfold count. rewrite filter_cons.
  destruct (p line); by case_decide.
Qed.

Lemma count_nil p : count p [] = 0.
Proof. reflexivity. Qed.

Lemma count_zero_of_Forall p doc :
  Forall (λ line, p line = false) doc → count p doc = 0.
Proof.
  induction 1 as [|line doc Hl _ IH]; [done|].
  by rewrite count_cons, Hl, IH.
Qed.

Lemma coordinate_lines_Forall lines :
  Forall (λ line, is_coordinate line = true) (coordinate_lines lines).
Proof.
  apply Forall_forall. intros line Hin.
  by apply list_elem_of_filter in Hin as [? _].
Qed.

Lemma coordinate_lines_idemp lines :
  coordinate_lines (coordinate_lines lines) = coordinate_lines lines.
Proof. unfold coordinate_lines. by apply list_filter_filter_l. Qed.

Lemma count_coordinate_lines lines :
  count is_coordinate (coordinate_lines lines) = count is_coordinate lines.
Proof.
  rewrite !count_length. fold (coordinate_lines (coordinate_lines lines)).
  by rewrite coordinate_lines_idemp.
Qed.

Lemma has_coordinates_nonempty lines :
  has_coordinates lines = true ↔ coordinate_lines lines ≠ [].
Proof.
  unfold has_coordinates, count. fold (coordinate_lines lines).
  destruct (coordinate_lines lines); simpl; split; done.
Qed.

(** The coordinate records of a minimal-mode output are those of the
    input. *)
Lemma coordinate_lines_minimal_output lines :
  coordinate_lines (HEADER_LINE :: coordinate_lines lines ++ [END_LINE]) =
  coordinate_lines lines.
Proof.
  unfold coordinate_lines at 1. rewrite filter_cons_False by done.
  rewrite filter_app, (filter_cons_False _ END_LINE) by done.
  rewrite filter_nil, app_nil_r. apply coordinate_lines_idemp.
Qed.

(** ** Minimal mode *)

Lemma minimal_output_sanitized lines :
  coordinate_lines lines ≠ [] →
  sanitized_document (HEADER_LINE :: coordinate_lines lines ++ [END_LINE]) = true.
Proof.
  intros Hne. pose proof (coordinate_lines_Forall lines) as Hall.
  assert (count is_header (coordinate_lines lines) = 0) as Hh.
  { apply count_zero_of_Forall. eapply Forall_impl; [exact Hall|].
    intros line. apply coordinate_not_header. }
  assert (count is_end (coordinate_lines lines) = 0) as He.
  { apply count_zero_of_Forall. eapply Forall_impl; [exact Hall|].
    intros line. apply coordinate_not_end. }
  unfold sanitized_document, header_first_and_unique, has_coordinates,
    end_last_and_unique.
  rewrite !count_cons, !count_app, !count_cons, !count_nil, Hh, He.
  rewrite count_coordinate_lines.
  change (HEADER_LINE :: coordinate_lines lines ++ [END_LINE])
    with ((HEADER_LINE :: coordinate_lines lines) ++ [END_LINE]).
  rewrite last_snoc. simpl.
  apply has_coordinates_nonempty in Hne. unfold has_coordinates in Hne.
  simpl in Hne. rewrite Nat.add_0_r.
  by destruct (count is_coordinate lines).
Qed.

Lemma sanitize_minimal_ok impl lines out :
  mode_of impl = Minimal →
  sanitize impl lines = Ok out →
  out = HEADER_LINE :: coordinate_lines lines ++ [END_LINE]
  ∧ coordinate_lines lines ≠ [].
Proof.
  intros Hmode Hrun. destruct impl; [| |done]; simpl in Hrun.
  - rewrite clean_pdb_for_dssp_lines_eq in Hrun.
    case_bool_decide; [done|]. split; congruence.
  - rewrite clean_pdb_minimal_lines_eq in Hrun.
    case_bool_decide; [done|]. split; congruence.
Qed.

Lemma sanitize_minimal_some impl lines :
  mode_of impl = Minimal →
  coordinate_lines lines ≠ [] →
  sanitize impl lines = Ok (HEADER_LINE :: coordinate_lines lines ++ [END_LINE]).
Proof.
  intros Hmode Hne. destruct impl; [| |done]; simpl.
  - rewrite clean_pdb_for_dssp_lines_eq. by rewrite bool_decide_eq_false_2.
  - rewrite clean_pdb_minimal_lines_eq. by rewrite bool_decide_eq_false_2.
Qed.

(** C4. Every line of a minimal-mode output ([clean_pdb_for_dssp] and
    [clean_pdb_minimal] alike) is the synthesized HEADER (the first line),
    a coordinate line of the input (in between), or the END record (the
    last line); each line is of kind HEADER, ATOM/HETATM or END. *)
Theorem minimal_emits_only_header_coordinates_end impl lines out :
  mode_of impl = Minimal →
  sanitize impl lines = Ok out →
  (∃ body,
     out = HEADER_LINE :: body ++ [END_LINE] ∧
     body `sublist_of` lines ∧
     Forall (λ line, line ∈ lines ∧ is_coordinate line = true) body) ∧
  Forall (λ line, line = HEADER_LINE
                  ∨ (line ∈ lines ∧ is_coordinate line = true)
                  ∨ line = END_LINE) out ∧
  Forall (λ line, is_header line || is_coordinate line || is_end line = true) out.
Proof.
  intros Hmode Hrun.
  apply sanitize_minimal_ok in Hrun as [-> _]; [|done].
  assert (Forall (λ line, line ∈ lines ∧ is_coordinate line = true)
            (coordinate_lines lines)) as Hbody.
  { apply Forall_forall. intros line Hin.
    apply list_elem_of_filter in Hin. tauto. }
  split; [|split].
  - exists (coordinate_lines lines). split; [done|]. split; [|done].
    apply sublist_filter.
  - constructor; [by left|]. apply Forall_app. split.
    + eapply Forall_impl; [exact Hbody|]. intros line H. right. by left.
    + constructor; [|done]. right. by right.
  - constructor; [done|]. apply Forall_app. split.
    + eapply Forall_impl; [exact Hbody|]. intros line [_ ->].
      by rewrite orb_true_r.
    + by constructor.
Qed.

Lemma minimal_emits_only_header_coordinates_end_witness :
  Forall (λ line, is_header line || is_coordinate line || is_end line = true)
    [HEADER_LINE; Samples.atom1; Samples.hetatm; END_LINE].
Proof.
  exact (proj2 (proj2 (minimal_emits_only_header_coordinates_end
                         CleanPdbForDssp
                         [Samples.remark; Samples.atom1; Samples.hetatm; END_LINE]
                         [HEADER_LINE; Samples.atom1; Samples.hetatm; END_LINE]
                         eq_refl eq_refl))).
Defined.

(** C10. The result of minimal mode is a function of the coordinate lines
    alone: two inputs with the same subsequence of lines beginning with
    ['ATOM  '] or ['HETATM'] give the same output, or the same failure. *)
Theorem minimal_depends_only_on_coordinate_lines impl lines1 lines2 :
  mode_of impl = Minimal →
  coordinate_lines lines1 = coordinate_lines lines2 →
  sanitize impl lines1 = sanitize impl lines2.
Proof.
  intros Hmode Heq. destruct impl; [| |done]; simpl.
  - by rewrite !clean_pdb_for_dssp_lines_eq, Heq.
  - by rewrite !clean_pdb_minimal_lines_eq, Heq.
Qed.

Lemma minimal_depends_only_on_coordinate_lines_witness :
  sanitize CleanPdbMinimal [Samples.remark; Samples.atom1] =
  sanitize CleanPdbMinimal [Samples.atom1; Samples.atomic; Samples.endmdl].
Proof.
  apply minimal_depends_only_on_coordinate_lines; reflexivity.
Defined.

(** ** Permissive mode: the loop as a filter *)

Lemma startswith_header line : startswith line ["HEADER"] = is_header line.
Proof. unfold startswith, is_header; simpl. by rewrite orb_false_r. Qed.

Lemma filter_body_spec st line :
  RobustPdbCleaner.filter_body st line =
  {| RobustPdbCleaner.kept_lines :=
       RobustPdbCleaner.kept_lines st ++ (if is_retained line then [line] else []);
     RobustPdbCleaner.has_header :=
       RobustPdbCleaner.has_header st || is_header line |}.
Proof.
  unfold RobustPdbCleaner.filter_body, is_retained.
  rewrite <- startswith_header.
  generalize (startswith line ["HEADER"])
    (startswith line ["ATOM"; "HETATM"; "TER"; "END"; "MODEL"; "ENDMDL"])
    (startswith line ["CRYST1"; "ORIGX"; "SCALE"; "MTRIX"]).
  intros [] [] []; destruct st as [kept hh]; cbn;
    rewrite ?orb_true_r, ?orb_false_r, ?app_nil_r; reflexivity.
Qed.

Lemma retained_lines_snoc lines line :
  retained_lines (lines ++ [line]) =
  retained_lines lines ++ (if is_retained line then [line] else []).
Proof.
  unfold retained_lines. rewrite filter_app. f_equal.
  rewrite filter_cons, filter_nil.
  destruct (is_retained line); by case_decide.
Qed.

Lemma filter_fold_spec lines st :
  foldl RobustPdbCleaner.filter_body st lines =
  {| RobustPdbCleaner.kept_lines :=
       RobustPdbCleaner.kept_lines st ++ retained_lines lines;
     RobustPdbCleaner.has_header :=
       RobustPdbCleaner.has_header st || existsb is_header lines |}.
Proof.
  revert st. induction lines as [|line lines IH] using rev_ind; intros st.
  - destruct st; simpl. by rewrite app_nil_r, orb_false_r.
  - rewrite foldl_snoc, IH, filter_body_spec, retained_lines_snoc,
      existsb_app; simpl.
    by rewrite app_assoc, orb_false_r, orb_assoc.
Qed.

Lemma filter_loop_spec lines :
  RobustPdbCleaner.filter_loop lines =
  {| RobustPdbCleaner.kept_lines := retained_lines lines;
     RobustPdbCleaner.has_header := existsb is_header lines |}.
Proof. unfold RobustPdbCleaner.filter_loop. by rewrite filter_fold_spec. Qed.

Lemma kept_lines_retained lines :
  RobustPdbCleaner.kept_lines (RobustPdbCleaner.filter_loop lines) =
  retained_lines lines.
Proof. by rewrite filter_loop_spec. Qed.

Lemma header_is_retained line : is_header line = true → is_retained line = true.
Proof.
  intros H. unfold is_retained. by rewrite startswith_header, H.
Qed.

Lemma END_prefix_is_retained line :
  String.prefix "END" line = true → is_retained line = true.
Proof.
  intros H. unfold is_retained, startswith; simpl. rewrite H.
  by rewrite !orb_true_r.
Qed.

Lemma ATOM_prefix_is_retained line :
  String.prefix "ATOM" line = true → is_retained line = true.
Proof.
  intros H. unfold is_retained, startswith; simpl. rewrite H.
  by rewrite !orb_true_r.
Qed.

Lemma coordinate_is_retained line :
  is_coordinate line = true → is_retained line = true.
Proof.
  unfold is_coordinate. intros [H|H]%orb_true_iff.
  - apply ATOM_prefix_is_retained.
    apply prefix_cons_inv in H as (r1 & -> & H).
    apply prefix_cons_inv in H as (r2 & -> & H).
    apply prefix_cons_inv in H as (r3 & -> & H).
    apply prefix_cons_inv in H as (r4 & -> & H). by destruct r4.
  - unfold is_retained, startswith; simpl. rewrite H.
    by rewrite !orb_true_r.
Qed.

(** Counting records of a retained kind is not affected by the filter. *)
Lemma count_retained p lines :
  (∀ line, p line = true → is_retained line = true) →
  count p (retained_lines lines) = count p lines.
Proof.
  intros Hp. unfold count, retained_lines. f_equal.
  apply list_filter_filter_l. exact Hp.
Qed.

Lemma existsb_count p (lines : list string) :
  existsb p lines = negb (Nat.eqb (count p lines) 0).
Proof.
  induction lines as [|line lines IH]; [done|].
  rewrite count_cons. simpl. rewrite IH. by destruct (p line).
Qed.

Lemma has_header_spec lines :
  RobustPdbCleaner.has_header (RobustPdbCleaner.filter_loop lines) =
  negb (Nat.eqb (count is_header (retained_lines lines)) 0).
Proof.
  rewrite filter_loop_spec; simpl.
  rewrite (count_retained _ _ header_is_retained). apply existsb_count.
Qed.

Lemma last_add_header st :
  last (RobustPdbCleaner.add_header st) =
  match last (RobustPdbCleaner.kept_lines st) with
  | Some e => Some e
  | None => if RobustPdbCleaner.has_header st then None else Some HEADER_LINE
  end.
Proof.
  unfold RobustPdbCleaner.add_header.
  destruct (RobustPdbCleaner.has_header st); simpl.
  - by destruct (last _).
  - apply last_cons.
Qed.

Lemma startswith_END line : startswith line ["END"] = String.prefix "END" line.
Proof. unfold startswith; simpl. by rewrite orb_false_r. Qed.

(** The END test of line 76 looks at the last retained line; with no
    retained line it looks at the synthesized HEADER and appends. *)
Lemma needs_end_add_header st :
  RobustPdbCleaner.needs_end (RobustPdbCleaner.add_header st) =
  match last (RobustPdbCleaner.kept_lines st) with
  | Some e => negb (String.prefix "END" e)
  | None => true
  end.
Proof.
  unfold RobustPdbCleaner.needs_end. rewrite last_add_header.
  destruct (last _) as [e|]; [by rewrite startswith_END|].
  by destruct (RobustPdbCleaner.has_header st).
Qed.

(** The shape of a permissive output. *)
Lemma mkdssp_shape lines :
  ∃ pre post,
    RobustPdbCleaner.clean_pdb_for_mkdssp_lines lines
      = pre ++ retained_lines lines ++ post
    ∧ (pre = [] ∨ pre = [HEADER_LINE])
    ∧ (post = [] ∨ post = [END_LINE]).
Proof.
  unfold RobustPdbCleaner.clean_pdb_for_mkdssp_lines,
    RobustPdbCleaner.ensure_end, RobustPdbCleaner.add_header.
  rewrite kept_lines_retained.
  destruct (RobustPdbCleaner.has_header _); simpl;
    destruct (RobustPdbCleaner.needs_end _).
  - exists [], [END_LINE]. auto.
  - exists [], []. rewrite app_nil_r. auto.
  - exists [HEADER_LINE], [END_LINE]. auto.
  - exists [HEADER_LINE], []. rewrite app_nil_r. auto.
Qed.

Lemma mkdssp_count_coordinates lines :
  count is_coordinate (RobustPdbCleaner.clean_pdb_for_mkdssp_lines lines) =
  count is_coordinate lines.
Proof.
  destruct (mkdssp_shape lines) as (pre & post & -> & Hpre & Hpost).
  rewrite !count_app, (count_retained _ _ coordinate_is_retained).
  assert (count is_coordinate pre = 0) as ->
    by (destruct Hpre as [-> | ->]; reflexivity).
  assert (count is_coordinate post = 0) as ->
    by (destruct Hpost as [-> | ->]; reflexivity).
  lia.
Qed.

(** C5. Permissive filtering is one order-preserving pass: the output is
    the retained input lines, in their input order and with nothing in
    between, after at most a synthesized HEADER and before at most a
    synthesized END; the retained lines are a subsequence of the input
    and are exactly the input lines of a retained kind. *)
Theorem permissive_preserves_order lines :
  let kept := RobustPdbCleaner.kept_lines (RobustPdbCleaner.filter_loop lines) in
  (∃ pre post,
     RobustPdbCleaner.clean_pdb_for_mkdssp_lines lines = pre ++ kept ++ post
     ∧ (pre = [] ∨ pre = [HEADER_LINE])
     ∧ (post = [] ∨ post = [END_LINE]))
  ∧ kept `sublist_of` lines
  ∧ kept = filter (λ line, is_retained line = true) lines.
Proof.
  intros kept. subst kept. split; [|split].
  - destruct (mkdssp_shape lines) as (pre & post & Hout & Hpre & Hpost).
    exists pre, post. rewrite kept_lines_retained. tauto.
  - rewrite kept_lines_retained. apply sublist_filter.
  - apply kept_lines_retained.
Qed.

(** ** Permissive mode: the trailing END *)

Lemma mkdssp_no_append lines e :
  last (RobustPdbCleaner.kept_lines (RobustPdbCleaner.filter_loop lines)) = Some e →
  String.prefix "END" e = true →
  RobustPdbCleaner.clean_pdb_for_mkdssp_lines lines =
  RobustPdbCleaner.add_header (RobustPdbCleaner.filter_loop lines).
Proof.
  intros Hlast Hp.
  unfold RobustPdbCleaner.clean_pdb_for_mkdssp_lines, RobustPdbCleaner.ensure_end.
  by rewrite needs_end_add_header, Hlast, Hp.
Qed.

Lemma mkdssp_append lines :
  match last (RobustPdbCleaner.kept_lines (RobustPdbCleaner.filter_loop lines)) with
  | Some e => String.prefix "END" e = false
  | None => True
  end →
  RobustPdbCleaner.clean_pdb_for_mkdssp_lines lines =
  RobustPdbCleaner.add_header (RobustPdbCleaner.filter_loop lines) ++ [END_LINE].
Proof.
  intros Hlast.
  unfold RobustPdbCleaner.clean_pdb_for_mkdssp_lines, RobustPdbCleaner.ensure_end.
  rewrite needs_end_add_header.
  destruct (last _) as [e|]; [by rewrite Hlast|done].
Qed.

Lemma app_singleton_ne {A} (l : list A) x : l ≠ l ++ [x].
Proof.
  intros H. apply (f_equal length) in H. rewrite length_app in H.
  simpl in H. lia.
Qed.

(** C6. Permissive mode does not duplicate END: when the last retained
    line is an END record nothing is appended (the output is the retained
    lines under their HEADER, with as many END records as were retained);
    and when ['END\n'] is appended, the last retained line, if there is
    one, is not an END record. *)
Theorem permissive_does_not_duplicate_end lines :
  let st := RobustPdbCleaner.filter_loop lines in
  let out := RobustPdbCleaner.clean_pdb_for_mkdssp_lines lines in
  (∀ e, last (RobustPdbCleaner.kept_lines st) = Some e →
        is_end e = true →
        out = RobustPdbCleaner.add_header st
        ∧ count is_end out = count is_end (RobustPdbCleaner.kept_lines st))
  ∧ (out = RobustPdbCleaner.add_header st ++ [END_LINE] →
     ∀ e, last (RobustPdbCleaner.kept_lines st) = Some e → is_end e = false)
  ∧ (out = RobustPdbCleaner.add_header st
     ∨ out = RobustPdbCleaner.add_header st ++ [END_LINE]).
Proof.
  intros st out. subst st out. split; [|split].
  - intros e Hlast He. apply is_end_END_prefix in He.
    rewrite (mkdssp_no_append _ _ Hlast He). split; [done|].
    unfold RobustPdbCleaner.add_header.
    destruct (RobustPdbCleaner.has_header _); simpl; [done|].
    by rewrite count_cons.
  - intros Hout e Hlast.
    destruct (is_end e) eqn:He; [|done].
    apply is_end_END_prefix in He.
    rewrite (mkdssp_no_append _ _ Hlast He) in Hout.
    by apply app_singleton_ne in Hout.
  - unfold RobustPdbCleaner.clean_pdb_for_mkdssp_lines, RobustPdbCleaner.ensure_end.
    destruct (RobustPdbCleaner.needs_end _); auto.
Qed.

Lemma permissive_does_not_duplicate_end_witness :
  RobustPdbCleaner.clean_pdb_for_mkdssp_lines
    [Samples.header_a; Samples.atom1; Samples.helix; END_LINE] =
  [Samples.header_a; Samples.atom1; END_LINE]
  ∧ count is_end [Samples.header_a; Samples.atom1; END_LINE] = 1.
Proof.
  destruct (proj1 (permissive_does_not_duplicate_end
                     [Samples.header_a; Samples.atom1; Samples.helix; END_LINE])
              END_LINE eq_refl eq_refl) as [Hout Hcount].
  split; [exact Hout|].
  reflexivity.
Defined.

(** C9. The END test of permissive mode is a prefix test: whenever the
    last retained line begins with ['END'] nothing is appended and that
    line is the last line of the output. An ENDMDL record is such a
    line: on the input MODEL, ATOM, ENDMDL the output ends with the
    ENDMDL record and holds no END record. *)
Theorem permissive_end_test_accepts_endmdl :
  (∀ lines e,
     last (RobustPdbCleaner.kept_lines (RobustPdbCleaner.filter_loop lines)) = Some e →
     String.prefix "END" e = true →
     RobustPdbCleaner.clean_pdb_for_mkdssp_lines lines =
       RobustPdbCleaner.add_header (RobustPdbCleaner.filter_loop lines)
     ∧ last (RobustPdbCleaner.clean_pdb_for_mkdssp_lines lines) = Some e)
  ∧ (∃ lines,
       last (RobustPdbCleaner.kept_lines (RobustPdbCleaner.filter_loop lines))
         = Some Samples.endmdl
       ∧ last (RobustPdbCleaner.clean_pdb_for_mkdssp_lines lines)
         = Some Samples.endmdl
       ∧ is_end Samples.endmdl = false
       ∧ count is_end (RobustPdbCleaner.clean_pdb_for_mkdssp_lines lines) = 0
       ∧ END_LINE ∉ RobustPdbCleaner.clean_pdb_for_mkdssp_lines lines).
Proof.
  split.
  - intros lines e Hlast Hp.
    rewrite (mkdssp_no_append _ _ Hlast Hp). split; [done|].
    by rewrite last_add_header, Hlast.
  - exists Samples.ends_with_endmdl.
    repeat split; try reflexivity.
    intros Hin. vm_compute in Hin.
    repeat (apply elem_of_cons in Hin as [Hin|Hin]; [discriminate|]).
    by apply elem_of_nil in Hin.
Qed.

Lemma permissive_end_test_accepts_endmdl_witness :
  RobustPdbCleaner.clean_pdb_for_mkdssp_lines Samples.ends_with_endmdl =
    HEADER_LINE :: Samples.ends_with_endmdl
  ∧ last (RobustPdbCleaner.clean_pdb_for_mkdssp_lines Samples.ends_with_endmdl)
    = Some Samples.endmdl.
Proof.
  exact (proj1 permissive_end_test_accepts_endmdl
           Samples.ends_with_endmdl Samples.endmdl eq_refl eq_refl).
Defined.

(** ** The two coordinate tests *)

(** C8. Minimal mode keeps a line exactly when it begins with the six
    characters ['ATOM  '] or ['HETATM'] (both implementations, line by
    line and on the whole output); permissive mode keeps every line that
    begins with the four characters ['ATOM']. A line beginning with
    ['ATOMIC'] is therefore dropped by minimal mode and retained by
    permissive mode. *)
Theorem coordinate_tests_differ :
  (∀ st line,
     App.cleaned_lines (App.loop_body st line) =
       App.cleaned_lines st ++
       (if String.prefix "ATOM  " line || String.prefix "HETATM" line
        then [line] else []))
  ∧ (∀ st line,
     RobustPdbCleaner.cleaned_lines (RobustPdbCleaner.loop_body st line) =
       RobustPdbCleaner.cleaned_lines st ++
       (if String.prefix "ATOM  " line || String.prefix "HETATM" line
        then [line] else []))
  ∧ (∀ impl lines out,
       mode_of impl = Minimal → sanitize impl lines = Ok out →
       out = HEADER_LINE ::
             filter (λ line, String.prefix "ATOM  " line = true
                             ∨ String.prefix "HETATM" line = true) lines
             ++ [END_LINE])
  ∧ (∀ st line,
       String.prefix "ATOM" line = true →
       RobustPdbCleaner.kept_lines (RobustPdbCleaner.filter_body st line) =
         RobustPdbCleaner.kept_lines st ++ [line])
  ∧ (String.prefix "ATOMIC" Samples.atomic = true
     ∧ sanitize CleanPdbForDssp Samples.with_atomic
       = Ok [HEADER_LINE; Samples.atom1; END_LINE]
     ∧ sanitize CleanPdbMinimal Samples.with_atomic
       = Ok [HEADER_LINE; Samples.atom1; END_LINE]
     ∧ sanitize CleanPdbForMkdssp Samples.with_atomic
       = Ok [HEADER_LINE; Samples.atomic; Samples.atom1; END_LINE]).
Proof.
  split; [|split; [|split; [|split]]].
  - intros st line. unfold App.loop_body. rewrite startswith_coordinate.
    unfold is_coordinate.
    destruct (_ || _); simpl; [done|by rewrite app_nil_r].
  - intros st line. unfold RobustPdbCleaner.loop_body.
    rewrite startswith_coordinate. unfold is_coordinate.
    destruct (_ || _); simpl; [done|by rewrite app_nil_r].
  - intros impl lines out Hmode Hrun.
    apply sanitize_minimal_ok in Hrun as [-> _]; [|done].
    do 2 f_equal. unfold coordinate_lines. apply list_filter_iff.
    intros line. unfold is_coordinate. by rewrite orb_true_iff.
  - intros st line Hp. rewrite filter_body_spec; simpl.
    by rewrite (ATOM_prefix_is_retained _ Hp).
  - repeat split.
Qed.

Lemma coordinate_tests_differ_witness :
  RobustPdbCleaner.kept_lines
    (RobustPdbCleaner.filter_body
       {| RobustPdbCleaner.kept_lines := [];
          RobustPdbCleaner.has_header := false |} Samples.atomic)
  = [Samples.atomic]
  ∧ App.cleaned_lines
      (App.loop_body
         {| App.cleaned_lines := [HEADER_LINE]; App.has_atoms := false |}
         Samples.atomic)
    = [HEADER_LINE].
Proof.
  split.
  - exact (proj1 (proj2 (proj2 (proj2 coordinate_tests_differ)))
             {| RobustPdbCleaner.kept_lines := [];
                RobustPdbCleaner.has_header := false |}
             Samples.atomic eq_refl).
  - exact (proj1 coordinate_tests_differ
             {| App.cleaned_lines := [HEADER_LINE]; App.has_atoms := false |}
             Samples.atomic).
Defined.

(** ** The result guarantee *)

Lemma count_pos_head_app p (l post : list string) :
  count p l ≠ 0 → head (l ++ post) = head l.
Proof. destruct l; [done|reflexivity]. Qed.

(** Invariant 1 on a permissive output. *)
Lemma mkdssp_header_invariant lines :
  header_first_and_unique (RobustPdbCleaner.clean_pdb_for_mkdssp_lines lines) =
  Nat.eqb (count is_header (retained_lines lines)) 0
  || header_first_and_unique (retained_lines lines).
Proof.
  unfold RobustPdbCleaner.clean_pdb_for_mkdssp_lines, RobustPdbCleaner.ensure_end.
  set (st := RobustPdbCleaner.filter_loop lines).
  assert (∀ post, count is_header post = 0 →
            header_first_and_unique (RobustPdbCleaner.add_header st ++ post) =
            Nat.eqb (count is_header (retained_lines lines)) 0
            || header_first_and_unique (retained_lines lines)) as Hgen.
  { intros post Hpost. unfold RobustPdbCleaner.add_header. subst st.
    rewrite has_header_spec, kept_lines_retained, negb_involutive.
    destruct (Nat.eqb _ 0) eqn:Hz; simpl.
    - apply Nat.eqb_eq in Hz. unfold header_first_and_unique.
      by rewrite count_cons, count_app, Hz, Hpost.
    - apply Nat.eqb_neq in Hz. unfold header_first_and_unique.
      by rewrite (count_pos_head_app _ _ _ Hz), count_app, Hpost, Nat.add_0_r. }
  destruct (RobustPdbCleaner.needs_end _).
  - by apply Hgen.
  - rewrite <- (app_nil_r (RobustPdbCleaner.add_header st)). by apply Hgen.
Qed.

Lemma count_end_add_header st :
  count is_end (RobustPdbCleaner.add_header st) =
  count is_end (RobustPdbCleaner.kept_lines st).
Proof.
  unfold RobustPdbCleaner.add_header.
  destruct (RobustPdbCleaner.has_header st); simpl; [done|].
  by rewrite count_cons.
Qed.

(** Invariant 3 on a permissive output. *)
Lemma mkdssp_end_invariant lines :
  end_last_and_unique (RobustPdbCleaner.clean_pdb_for_mkdssp_lines lines) =
  match last (retained_lines lines) with
  | Some e =>
      if String.prefix "END" e then end_last_and_unique (retained_lines lines)
      else Nat.eqb (count is_end (retained_lines lines)) 0
  | None => true
  end.
Proof.
  rewrite <- kept_lines_retained.
  destruct (last (RobustPdbCleaner.kept_lines _)) as [e|] eqn:Hlast.
  - destruct (String.prefix "END" e) eqn:Hp.
    + rewrite (mkdssp_no_append _ _ Hlast Hp). unfold end_last_and_unique.
      by rewrite last_add_header, Hlast, count_end_add_header.
    + rewrite mkdssp_append by by rewrite Hlast.
      unfold end_last_and_unique.
      rewrite last_snoc, count_app, count_end_add_header. simpl.
      change (count is_end [END_LINE]) with 1.
      by rewrite Nat.add_1_r.
  - rewrite mkdssp_append by by rewrite Hlast.
    unfold end_last_and_unique.
    rewrite last_snoc, count_app, count_end_add_header.
    apply last_None in Hlast. by rewrite Hlast.
Qed.

(** A permissive output is a Sanitized Document exactly when the input
    has a coordinate record and its retained lines are well formed. *)
Lemma mkdssp_sanitized_iff lines :
  sanitized_document (RobustPdbCleaner.clean_pdb_for_mkdssp_lines lines) =
  has_coordinates lines
  && permissive_well_formed
       (RobustPdbCleaner.kept_lines (RobustPdbCleaner.filter_loop lines)).
Proof.
  unfold sanitized_document, permissive_well_formed.
  rewrite mkdssp_header_invariant, mkdssp_end_invariant, kept_lines_retained.
  unfold has_coordinates at 1. rewrite mkdssp_count_coordinates.
  fold (has_coordinates lines).
  destruct (has_coordinates lines), (_ || _); simpl; try done.
Qed.

Lemma mkdssp_has_header lines :
  (1 ≤ count is_header (RobustPdbCleaner.clean_pdb_for_mkdssp_lines lines))%nat.
Proof.
  unfold RobustPdbCleaner.clean_pdb_for_mkdssp_lines, RobustPdbCleaner.ensure_end.
  assert (1 ≤ count is_header
                (RobustPdbCleaner.add_header (RobustPdbCleaner.filter_loop lines)))%nat.
  { unfold RobustPdbCleaner.add_header.
    rewrite has_header_spec, kept_lines_retained, negb_involutive.
    destruct (Nat.eqb _ 0) eqn:Hz.
    - rewrite count_cons. simpl. lia.
    - apply Nat.eqb_neq in Hz. lia. }
  destruct (RobustPdbCleaner.needs_end _); [|done].
  rewrite count_app. lia.
Qed.

Lemma mkdssp_last_END_prefix lines :
  ∃ e, last (RobustPdbCleaner.clean_pdb_for_mkdssp_lines lines) = Some e
       ∧ String.prefix "END" e = true.
Proof.
  unfold RobustPdbCleaner.clean_pdb_for_mkdssp_lines, RobustPdbCleaner.ensure_end.
  destruct (RobustPdbCleaner.needs_end _) eqn:Hn.
  - exists END_LINE. by rewrite last_snoc.
  - unfold RobustPdbCleaner.needs_end in Hn.
    destruct (last _) as [e|]; [|done].
    exists e. split; [done|].
    rewrite startswith_END in Hn. by apply negb_false_iff in Hn.
Qed.

(** ** Inputs without coordinate records *)

(** C2, counterexample. The input REMARK, HELIX has no coordinate record,
    and the permissive filtering stage returns the document HEADER, END
    for it instead of failing. *)
Lemma permissive_does_not_fail_without_coordinates :
  has_coordinates Samples.no_coordinates = false
  ∧ sanitize CleanPdbForMkdssp Samples.no_coordinates
    = Ok [HEADER_LINE; END_LINE].
Proof. split; reflexivity. Qed.

(** C2, as amended. On an input without coordinate records both
    implementations of minimal mode raise [ValueError]; the permissive
    filtering stage raises nothing and returns a document that has no
    coordinate record. *)
Theorem no_coordinates_minimal_fails lines :
  has_coordinates lines = false →
  sanitize CleanPdbForDssp lines
    = Raise (ValueError "PDB file contains no ATOM records!")
  ∧ sanitize CleanPdbMinimal lines
    = Raise (ValueError "No ATOM records found in PDB file!")
  ∧ ∃ out, sanitize CleanPdbForMkdssp lines = Ok out
           ∧ has_coordinates out = false.
Proof.
  intros Hc.
  assert (coordinate_lines lines = []) as Hnil.
  { destruct (coordinate_lines lines) eqn:E; [done|].
    assert (has_coordinates lines = true); [|congruence].
    apply has_coordinates_nonempty. by rewrite E. }
  split; [|split]; simpl.
  - by rewrite clean_pdb_for_dssp_lines_eq, Hnil.
  - by rewrite clean_pdb_minimal_lines_eq, Hnil.
  - eexists. split; [done|].
    unfold has_coordinates. rewrite mkdssp_count_coordinates. exact Hc.
Qed.

Lemma no_coordinates_minimal_fails_witness :
  sanitize CleanPdbForDssp Samples.no_coordinates
    = Raise (ValueError "PDB file contains no ATOM records!").
Proof.
  exact (proj1 (no_coordinates_minimal_fails Samples.no_coordinates eq_refl)).
Defined.

(** ** The batch loop *)

Import Batch.

Lemma clean_into_fresh raw input f :
  clean_into (<[name f := getbuffer f]> raw) input (name f) =
  match App.clean_pdb_for_dssp (getbuffer f) with
  | Ok cleaned => Ok (<[name f := cleaned]> input)
  | Raise e => Raise e
  end.
Proof. unfold clean_into, read_file. by rewrite lookup_insert_eq. Qed.

Lemma process_file_input_dir total i f st :
  input_dir (process_file total i f st) = store_cleaned (input_dir st) f.
Proof.
  unfold process_file, store_cleaned. rewrite clean_into_fresh.
  by destruct (App.clean_pdb_for_dssp _).
Qed.

Lemma process_file_count total i f st :
  processed_count (process_file total i f st) =
  processed_count st + (if sanitizes f then 1 else 0).
Proof.
  unfold process_file, sanitizes. rewrite clean_into_fresh.
  destruct (App.clean_pdb_for_dssp _); simpl; lia.
Qed.

Lemma process_file_ui total i f st :
  ∃ ev, ui (process_file total i f st) = ui st ++ [ev]
        ∧ match App.clean_pdb_for_dssp (getbuffer f) with
          | Ok _ => ev = Progress (i + 1) total
          | Raise e => ev = ErrorFailed (name f) e
          end.
Proof.
  unfold process_file. rewrite clean_into_fresh.
  destruct (App.clean_pdb_for_dssp _); simpl; eauto.
Qed.

Lemma batch_loop_input_dir total i files st :
  input_dir (batch_loop total i files st) =
  foldl store_cleaned (input_dir st) files.
Proof.
  revert i st. induction files as [|f files IH]; intros i st; [done|].
  simpl. by rewrite IH, process_file_input_dir.
Qed.

Lemma batch_loop_count total i files st :
  processed_count (batch_loop total i files st) =
  processed_count st + length (filter (λ f, sanitizes f = true) files).
Proof.
  revert i st. induction files as [|f files IH]; intros i st; simpl; [lia|].
  rewrite IH, process_file_count, filter_cons.
  destruct (sanitizes f); case_decide; simpl; try done; lia.
Qed.

Lemma batch_loop_ui_mono total i files st ev :
  ev ∈ ui st → ev ∈ ui (batch_loop total i files st).
Proof.
  revert i st. induction files as [|f files IH]; intros i st Hin; [done|].
  simpl. apply IH.
  destruct (process_file_ui total i f st) as (ev' & -> & _).
  apply elem_of_app. by left.
Qed.

Lemma batch_loop_reports total i files st f :
  f ∈ files → sanitizes f = false →
  ∃ e, App.clean_pdb_for_dssp (getbuffer f) = Raise e
       ∧ ErrorFailed (name f) e ∈ ui (batch_loop total i files st).
Proof.
  revert i st. induction files as [|g files IH]; intros i st Hin Hf.
  { by apply elem_of_nil in Hin. }
  apply elem_of_cons in Hin as [->|Hin]; [|by apply IH].
  unfold sanitizes in Hf.
  destruct (App.clean_pdb_for_dssp (getbuffer g)) as [c|e] eqn:Hrun; [done|].
  exists e. split; [done|]. simpl. apply batch_loop_ui_mono.
  destruct (process_file_ui total i g st) as (ev & -> & Hev).
  rewrite Hrun in Hev. subst ev. apply elem_of_app. right. by left.
Qed.

(** Failing files leave no trace in the directory. *)
Lemma store_cleaned_filter files dir :
  foldl store_cleaned dir files =
  foldl store_cleaned dir (filter (λ f, sanitizes f = true) files).
Proof.
  revert dir. induction files as [|f files IH]; intros dir; [done|].
  rewrite filter_cons. simpl.
  destruct (decide (sanitizes f = true)) as [Hs|Hs]; simpl; [by rewrite IH|].
  rewrite IH. f_equal. unfold store_cleaned, sanitizes in *.
  by destruct (App.clean_pdb_for_dssp _).
Qed.

(** Every entry of the directory was there before or is the cleaned
    content of a file that sanitized. *)
Lemma store_cleaned_lookup files dir n c :
  foldl store_cleaned dir files !! n = Some c →
  dir !! n = Some c
  ∨ ∃ g, g ∈ files ∧ name g = n ∧ App.clean_pdb_for_dssp (getbuffer g) = Ok c.
Proof.
  revert dir. induction files as [|f files IH]; intros dir Hl; [by left|].
  simpl in Hl. apply IH in Hl as [Hl|(g & Hin & Hn & Hg)].
  - unfold store_cleaned in Hl.
    destruct (App.clean_pdb_for_dssp (getbuffer f)) as [c'|e] eqn:Hrun;
      [|by left].
    destruct (decide (name f = n)) as [<-|Hne].
    + rewrite lookup_insert_eq in Hl. injection Hl as <-.
      right. exists f. split; [by left|done].
    + rewrite lookup_insert_ne in Hl by done. by left.
  - right. exists g. split; [by right|done].
Qed.

Lemma store_cleaned_keeps files dir n :
  is_Some (dir !! n) → is_Some (foldl store_cleaned dir files !! n).
Proof.
  revert dir. induction files as [|f files IH]; intros dir Hs; [done|].
  simpl. apply IH. unfold store_cleaned.
  destruct (App.clean_pdb_for_dssp _); [|done].
  destruct (decide (name f = n)) as [<-|Hne].
  - rewrite lookup_insert_eq. eauto.
  - by rewrite lookup_insert_ne.
Qed.

Lemma store_cleaned_present files dir f :
  f ∈ files → sanitizes f = true →
  is_Some (foldl store_cleaned dir files !! name f).
Proof.
  revert dir. induction files as [|g files IH]; intros dir Hin Hs.
  { by apply elem_of_nil in Hin. }
  apply elem_of_cons in Hin as [->|Hin]; [|by apply IH].
  simpl. apply store_cleaned_keeps. unfold store_cleaned, sanitizes in *.
  destruct (App.clean_pdb_for_dssp _); [|done].
  rewrite lookup_insert_eq. eauto.
Qed.

(** C7. In a batch, a file that fails to sanitize is reported and leaves
    nothing in the directory handed to the calculator, and the other
    files are processed as if it had not been uploaded: the directory is
    the one the successful files alone produce, every successful file has
    its entry, and every entry is the cleaned content of a file that
    sanitized. The calculator is called on that directory only, and when
    no file sanitizes the run stops without calling it. *)
Theorem batch_isolates_failures {Config Table : Type}
    (parse_config : result Config)
    (calc_all : Config → gmap string string → result Table)
    (uploaded_files : list uploaded_file) :
  let st := process_uploads uploaded_files in
  let good := filter (λ f, sanitizes f = true) uploaded_files in
  let r := run_analysis parse_config calc_all uploaded_files in
  input_dir st = input_dir (process_uploads good)
  ∧ processed_count st = length good
  ∧ (∀ f, f ∈ uploaded_files → sanitizes f = false →
       ∃ e, App.clean_pdb_for_dssp (getbuffer f) = Raise e
            ∧ ErrorFailed (name f) e ∈ ui st)
  ∧ (∀ f, f ∈ uploaded_files → sanitizes f = true →
       is_Some (input_dir st !! name f))
  ∧ (∀ n c, input_dir st !! n = Some c →
       ∃ g, g ∈ uploaded_files ∧ name g = n
            ∧ App.clean_pdb_for_dssp (getbuffer g) = Ok c)
  ∧ (∀ f, f ∈ uploaded_files →
       (∀ g, g ∈ uploaded_files → name g = name f → sanitizes g = false) →
       input_dir st !! name f = None)
  ∧ (∀ dir, dir ∈ calculator_calls r → dir = input_dir st ∧ good ≠ [])
  ∧ (good = [] → calculator_calls r = [] ∧ ending r = Stopped).
Proof.
  intros st good r. subst st good r.
  unfold process_uploads.
  rewrite !batch_loop_input_dir, batch_loop_count; simpl.
  split; [apply store_cleaned_filter|]. split; [done|].
  split; [intros f Hin Hf; by apply batch_loop_reports|].
  split; [intros f Hin Hf; by apply store_cleaned_present|].
  assert (∀ n c, foldl store_cleaned ∅ uploaded_files !! n = Some c →
            ∃ g, g ∈ uploaded_files ∧ name g = n
                 ∧ App.clean_pdb_for_dssp (getbuffer g) = Ok c) as Hentry.
  { intros n c Hl. apply store_cleaned_lookup in Hl as [Hl|Hl]; [|done].
    by rewrite lookup_empty in Hl. }
  split; [exact Hentry|]. split.
  { intros f Hin Hall.
    destruct (foldl store_cleaned ∅ uploaded_files !! name f) as [c|] eqn:Hl;
      [|done].
    apply Hentry in Hl as (g & Hg & Hn & Hrun).
    specialize (Hall g Hg Hn). unfold sanitizes in Hall.
    by rewrite Hrun in Hall. }
  unfold run_analysis, process_uploads.
  rewrite batch_loop_count; simpl.
  split.
  - intros dir Hin.
    destruct (filter _ uploaded_files) as [|g good] eqn:Hgood; simpl in Hin.
    { by apply elem_of_nil in Hin. }
    split; [|done].
    destruct parse_config as [cfg|e]; simpl in Hin.
    + destruct (calc_all cfg _); simpl in Hin;
        apply list_elem_of_singleton in Hin; subst dir; simpl;
        by rewrite batch_loop_input_dir.
    + by apply elem_of_nil in Hin.
  - intros ->. done.
Qed.

Lemma batch_isolates_failures_witness :
  input_dir (process_uploads [Samples.good1; Samples.empty2; Samples.good3])
    !! "b.pdb" = None
  ∧ is_Some (input_dir
               (process_uploads [Samples.good1; Samples.empty2; Samples.good3])
             !! "c.pdb")
  ∧ ∃ e, App.clean_pdb_for_dssp EmptyString = Raise e
         ∧ ErrorFailed "b.pdb" e
           ∈ ui (process_uploads [Samples.good1; Samples.empty2; Samples.good3]).
Proof.
  pose proof (batch_isolates_failures (Raise (ValueError EmptyString)) (λ (_ : unit) _, Ok tt)
                [Samples.good1; Samples.empty2; Samples.good3])
    as (Hdir & _ & Hrep & Hin & _ & Hout & _).
  split; [|split].
  - apply (Hout Samples.empty2); [right; by left|].
    intros g Hg Hn.
    repeat (apply elem_of_cons in Hg as [->|Hg]; [done|]).
    by apply elem_of_nil in Hg.
  - apply (Hin Samples.good3); [|reflexivity].
    right. right. by left.
  - apply (Hrep Samples.empty2); [|reflexivity].
    right. by left.
Defined.

(** ** Files: reading back what was written *)

Import TextIO.

Lemma translate_newlines_no_CR s : no_CR s = true → translate_newlines s = s.
Proof.
  induction s as [|c s IH]; [done|]. simpl.
  intros [Hc Hs]%andb_true_iff. apply negb_true_iff in Hc.
  by rewrite Hc, IH.
Qed.

Lemma translate_newlines_cons c s :
  translate_newlines (String c s) =
  if Ascii.eqb c CR then String LF (translate_newlines (after_CR s))
  else String c (translate_newlines s).
Proof.
  destruct s as [|c' s'']; simpl; [done|].
  by destruct (Ascii.eqb c CR), (Ascii.eqb c' LF).
Qed.

Lemma after_CR_length s : (String.length (after_CR s) ≤ String.length s)%nat.
Proof.
  destruct s as [|c' s'']; simpl; [done|].
  destruct (Ascii.eqb c' LF); simpl; lia.
Qed.

Lemma no_CR_translate s : no_CR (translate_newlines s) = true.
Proof.
  assert (∀ n s, (String.length s ≤ n)%nat →
            no_CR (translate_newlines s) = true)
    as Hgen; [|by apply (Hgen (String.length s))].
  clear s. induction n as [|n IH]; intros s Hlen.
  { by destruct s; [|simpl in Hlen; lia]. }
  destruct s as [|c s]; [done|].
  rewrite translate_newlines_cons. simpl in Hlen.
  destruct (Ascii.eqb c CR) eqn:Hc; cbn [no_CR].
  - apply andb_true_iff. split; [done|].
    apply IH. pose proof (after_CR_length s). lia.
  - rewrite Hc. apply IH. lia.
Qed.

Lemma no_CR_app s t : no_CR (s +:+ t) = no_CR s && no_CR t.
Proof.
  induction s as [|c s IH]; [done|]. simpl. by rewrite IH, andb_assoc.
Qed.

Lemma is_text_line_no_CR line : is_text_line line = true → no_CR line = true.
Proof.
  induction line as [|c rest IH]; [done|]. simpl.
  destruct rest as [|c' rest'].
  - intros ->%Ascii.eqb_eq. reflexivity.
  - intros [[_ Hc]%andb_true_iff Hr]%andb_true_iff.
    rewrite Hc. simpl. by apply IH.
Qed.

Lemma no_CR_writelines lines :
  Forall (λ line, is_text_line line = true) lines →
  no_CR (writelines lines) = true.
Proof.
  induction 1 as [|line lines Hl _ IH]; [done|].
  unfold writelines in *. simpl. rewrite no_CR_app, IH.
  by rewrite (is_text_line_no_CR _ Hl).
Qed.

Lemma splitlines_text_line line rest :
  is_text_line line = true →
  splitlines_keepends (line +:+ rest) = line :: splitlines_keepends rest.
Proof.
  induction line as [|c l IH]; [done|]. simpl.
  destruct l as [|c' l'].
  - intros Hc. by rewrite Hc.
  - intros [[Hc _]%andb_true_iff Hl]%andb_true_iff.
    apply negb_true_iff in Hc.
    change (String c (String c' l') +:+ rest)
      with (String c (String c' l' +:+ rest)).
    cbn [splitlines_keepends]. rewrite Hc.
    change (String c' (l' +:+ rest)) with (String c' l' +:+ rest).
    by rewrite (IH Hl).
Qed.

(** Reading back lines that were written gives the same lines, when each
    of them is a terminated line. *)
Lemma readlines_writelines lines :
  Forall (λ line, is_text_line line = true) lines →
  readlines (writelines lines) = lines.
Proof.
  intros Hall. unfold readlines.
  rewrite translate_newlines_no_CR by by apply no_CR_writelines.
  induction Hall as [|line lines Hl _ IH]; [done|].
  unfold writelines in *. simpl.
  by rewrite (splitlines_text_line _ _ Hl), IH.
Qed.

Lemma splitlines_text_lines s :
  no_CR s = true → newline_terminated s = true →
  Forall (λ line, is_text_line line = true) (splitlines_keepends s).
Proof.
  induction s as [|c s IH]; [constructor|].
  intros [Hc Hs]%andb_true_iff Hterm.
  cbn [splitlines_keepends]. destruct (Ascii.eqb c LF) eqn:Hlf.
  - constructor; [by simpl|].
    apply IH; [done|]. simpl in Hterm. by destruct s.
  - destruct s as [|c' s'].
    { simpl in Hterm. congruence. }
    specialize (IH Hs Hterm).
    destruct (splitlines_keepends (String c' s')) as [|l ls] eqn:Hsplit.
    { exfalso. simpl in Hsplit.
      destruct (Ascii.eqb c' LF); [done|].
      by destruct (splitlines_keepends s'). }
    apply Forall_cons in IH as [Hl Hls]. constructor; [|done].
    simpl. destruct l as [|c'' l'']; [done|].
    by rewrite Hlf, Hc, Hl.
Qed.

Lemma readlines_text_lines content :
  newline_terminated (translate_newlines content) = true →
  Forall (λ line, is_text_line line = true) (readlines content).
Proof.
  intros Hterm. apply splitlines_text_lines; [apply no_CR_translate|done].
Qed.

Lemma minimal_output_text_lines lines :
  Forall (λ line, is_text_line line = true) lines →
  Forall (λ line, is_text_line line = true)
    (HEADER_LINE :: coordinate_lines lines ++ [END_LINE]).
Proof.
  intros Hall. constructor; [done|]. apply Forall_app. split.
  - apply Forall_forall. intros line [_ Hin]%list_elem_of_filter.
    by apply (proj1 (Forall_forall _ _) Hall).
  - by constructor.
Qed.

(** File to file, [clean_pdb_for_dssp] is idempotent on a text whose
    last line is terminated: the file it writes is read back as the lines
    it produced, and cleaning that file writes the same file. *)
Proposition clean_pdb_for_dssp_file_idempotent content out :
  newline_terminated (translate_newlines content) = true →
  App.clean_pdb_for_dssp content = Ok out →
  App.clean_pdb_for_dssp_lines (readlines content) = Ok (readlines out)
  ∧ App.clean_pdb_for_dssp out = Ok out.
Proof.
  intros Hterm%readlines_text_lines Hrun.
  unfold App.clean_pdb_for_dssp in *.
  rewrite clean_pdb_for_dssp_lines_eq in *.
  case_bool_decide as Hc; [done|].
  assert (out = writelines (HEADER_LINE :: coordinate_lines (readlines content)
                              ++ [END_LINE])) as -> by congruence.
  clear Hrun.
  rewrite readlines_writelines by by apply minimal_output_text_lines.
  split; [done|].
  rewrite clean_pdb_for_dssp_lines_eq, coordinate_lines_minimal_output.
  by rewrite bool_decide_eq_false_2.
Qed.

Proposition clean_pdb_minimal_file_idempotent content out :
  newline_terminated (translate_newlines content) = true →
  RobustPdbCleaner.clean_pdb_minimal content = Ok out →
  RobustPdbCleaner.clean_pdb_minimal_lines (readlines content)
    = Ok (readlines out)
  ∧ RobustPdbCleaner.clean_pdb_minimal out = Ok out.
Proof.
  intros Hterm%readlines_text_lines Hrun.
  unfold RobustPdbCleaner.clean_pdb_minimal in *.
  rewrite clean_pdb_minimal_lines_eq in *.
  case_bool_decide as Hc; [done|].
  assert (out = writelines (HEADER_LINE :: coordinate_lines (readlines content)
                              ++ [END_LINE])) as -> by congruence.
  clear Hrun.
  rewrite readlines_writelines by by apply minimal_output_text_lines.
  split; [done|].
  rewrite clean_pdb_minimal_lines_eq, coordinate_lines_minimal_output.
  by rewrite bool_decide_eq_false_2.
Qed.

(** ** A last coordinate line without terminator *)

(** C1. On a file with a coordinate record whose last line, that record,
    has no line terminator, minimal mode does not fail and the document
    it writes is not a Sanitized Document: ['END\n'] is written onto the
    end of the coordinate line, so the file read back is the HEADER and
    one coordinate line, with no END record. Both implementations. *)
Theorem minimal_written_document_without_end :
  has_coordinates (readlines Samples.unterminated) = true
  ∧ App.clean_pdb_for_dssp Samples.unterminated
    = Ok (HEADER_LINE +:+ Samples.unterminated +:+ END_LINE)
  ∧ RobustPdbCleaner.clean_pdb_minimal Samples.unterminated
    = Ok (HEADER_LINE +:+ Samples.unterminated +:+ END_LINE)
  ∧ readlines (HEADER_LINE +:+ Samples.unterminated +:+ END_LINE)
    = [HEADER_LINE; Samples.unterminated +:+ END_LINE]
  ∧ count is_end (readlines (HEADER_LINE +:+ Samples.unterminated +:+ END_LINE))
    = 0
  ∧ end_last_and_unique
      (readlines (HEADER_LINE +:+ Samples.unterminated +:+ END_LINE)) = false
  ∧ sanitized_document
      (readlines (HEADER_LINE +:+ Samples.unterminated +:+ END_LINE)) = false.
Proof. repeat split. Qed.

(** C3. Minimal mode is not idempotent file to file. On a file whose
    last line, a coordinate record, has no line terminator, the first run
    writes ['END\n'] onto the end of that line; the second run reads the
    two as one coordinate line and writes another ['END\n'] after it, so
    the second output differs from the first. Both implementations. *)
Theorem minimal_second_run_adds_end :
  has_coordinates (readlines Samples.unterminated) = true
  ∧ App.clean_pdb_for_dssp Samples.unterminated
    = Ok (HEADER_LINE +:+ Samples.unterminated +:+ END_LINE)
  ∧ App.clean_pdb_for_dssp (HEADER_LINE +:+ Samples.unterminated +:+ END_LINE)
    = Ok (HEADER_LINE +:+ Samples.unterminated +:+ END_LINE +:+ END_LINE)
  ∧ RobustPdbCleaner.clean_pdb_minimal Samples.unterminated
    = Ok (HEADER_LINE +:+ Samples.unterminated +:+ END_LINE)
  ∧ RobustPdbCleaner.clean_pdb_minimal
      (HEADER_LINE +:+ Samples.unterminated +:+ END_LINE)
    = Ok (HEADER_LINE +:+ Samples.unterminated +:+ END_LINE +:+ END_LINE)
  ∧ readlines (HEADER_LINE +:+ Samples.unterminated +:+ END_LINE)
    = [HEADER_LINE; Samples.unterminated +:+ END_LINE]
  ∧ readlines (HEADER_LINE +:+ Samples.unterminated +:+ END_LINE +:+ END_LINE)
    = [HEADER_LINE; Samples.unterminated +:+ END_LINE; END_LINE]
  ∧ HEADER_LINE +:+ Samples.unterminated +:+ END_LINE +:+ END_LINE
    ≠ HEADER_LINE +:+ Samples.unterminated +:+ END_LINE.
Proof. repeat split. discriminate. Qed.

(** ** The scenarios of the specification (section 8) *)

Example scenario_minimal_atom_remark :
  sanitize CleanPdbForDssp [Samples.atom1; Samples.remark]
    = Ok [HEADER_LINE; Samples.atom1; END_LINE]
  ∧ sanitize CleanPdbMinimal [Samples.atom1; Samples.remark]
    = Ok [HEADER_LINE; Samples.atom1; END_LINE].
Proof. split; reflexivity. Qed.

Example scenario_permissive_header_atoms_helix_end :
  sanitize CleanPdbForMkdssp
    [Samples.header_a; Samples.atom1; Samples.atom2; Samples.atom1;
     Samples.helix; END_LINE]
  = Ok [Samples.header_a; Samples.atom1; Samples.atom2; Samples.atom1;
        END_LINE].
Proof. reflexivity. Qed.

Example scenario_batch_of_three :
  let st := process_uploads [Samples.good1; Samples.empty2; Samples.good3] in
  input_dir st !! "a.pdb" = Some (HEADER_LINE +:+ Samples.atom1 +:+ END_LINE)
  ∧ input_dir st !! "b.pdb" = None
  ∧ input_dir st !! "c.pdb" = Some (HEADER_LINE +:+ Samples.hetatm +:+ END_LINE)
  ∧ processed_count st = 2
  ∧ ui st = [InfoProcessing 3; ProgressStart; Progress 1 3;
             ErrorFailed "b.pdb"
               (ValueError "PDB file contains no ATOM records!");
             Progress 3 3]
  ∧ ending (run_analysis (Ok tt) (λ _ dir, Ok (size dir))
              [Samples.good1; Samples.empty2; Samples.good3])
    = AnalysisComplete 2
  ∧ ending (run_analysis (Ok tt) (λ _ dir, Ok (size dir)) [Samples.empty2])
    = Stopped.
Proof. repeat split. Qed.


(** * Further properties of the sources *)

(** ** The three sanitizers together *)

Lemma filter_all_true (p : string → bool) (l : list string) :
  Forall (λ line, p line = true) l → filter (λ line, p line = true) l = l.
Proof.
  induction 1 as [|x l Hx _ IH]; [done|].
  by rewrite filter_cons_True, IH.
Qed.

Lemma coordinate_lines_mkdssp lines :
  coordinate_lines (RobustPdbCleaner.clean_pdb_for_mkdssp_lines lines) =
  coordinate_lines lines.
Proof.
  destruct (mkdssp_shape lines) as (pre & post & -> & Hpre & Hpost).
  unfold coordinate_lines, retained_lines. rewrite !filter_app.
  rewrite (list_filter_filter_l _ _ lines) by apply coordinate_is_retained.
  assert (filter (λ line, is_coordinate line = true) pre = []) as ->
    by (destruct Hpre as [-> | ->]; reflexivity).
  assert (filter (λ line, is_coordinate line = true) post = []) as ->
    by (destruct Hpost as [-> | ->]; reflexivity).
  by rewrite app_nil_r.
Qed.

Lemma mkdssp_all_retained lines :
  Forall (λ line, is_retained line = true)
    (RobustPdbCleaner.clean_pdb_for_mkdssp_lines lines).
Proof.
  destruct (mkdssp_shape lines) as (pre & post & -> & Hpre & Hpost).
  apply Forall_app. split; [|apply Forall_app; split].
  - destruct Hpre as [-> | ->]; [constructor|by repeat constructor].
  - apply Forall_forall. intros line Hin.
    by apply list_elem_of_filter in Hin as [? _].
  - destruct Hpost as [-> | ->]; [constructor|by repeat constructor].
Qed.

(** A document that is made of retained kinds, holds a HEADER record and
    ends with a line beginning with ['END'] passes the permissive filter
    unchanged. *)
Lemma mkdssp_fixpoint doc :
  Forall (λ line, is_retained line = true) doc →
  existsb is_header doc = true →
  (∃ e, last doc = Some e ∧ String.prefix "END" e = true) →
  RobustPdbCleaner.clean_pdb_for_mkdssp_lines doc = doc.
Proof.
  intros Hall Hh (e & Hlast & He).
  assert (retained_lines doc = doc) as Hkept by by apply filter_all_true.
  assert (last (RobustPdbCleaner.kept_lines (RobustPdbCleaner.filter_loop doc))
          = Some e) as Hlast' by by rewrite kept_lines_retained, Hkept.
  rewrite (mkdssp_no_append _ _ Hlast' He).
  unfold RobustPdbCleaner.add_header. rewrite filter_loop_spec; simpl.
  by rewrite Hh, Hkept.
Qed.

Import Script.

(** X1. The two implementations of minimal mode are the same function up
    to the text of their own error. On every list of lines both succeed
    with the same lines, or both raise [ValueError], each with its own
    message. From the bytes of a file: when the file does not decode both
    raise the same exception, that of [open]/[readlines]; when it does,
    both write the same text or both raise their own [ValueError]. *)
Theorem minimal_implementations_agree :
  (∀ lines,
     match App.clean_pdb_for_dssp_lines lines,
           RobustPdbCleaner.clean_pdb_minimal_lines lines with
     | Ok out1, Ok out2 => out1 = out2
     | Raise e1, Raise e2 =>
         e1 = ValueError "PDB file contains no ATOM records!"
         ∧ e2 = ValueError "No ATOM records found in PDB file!"
     | _, _ => False
     end)
  ∧ (∀ (decode : string → outcome string) bytes,
       match OpenText.clean_pdb_for_dssp decode bytes,
             OpenText.clean_pdb_minimal decode bytes with
       | Returned out1, Returned out2 =>
           out1 = out2 ∧ ∃ content, decode bytes = Returned content
       | Threw c1 m1, Threw c2 m2 =>
           (decode bytes = Threw c1 m1 ∧ c2 = c1 ∧ m2 = m1)
           ∨ ((∃ content, decode bytes = Returned content)
              ∧ c1 = "ValueError" ∧ m1 = "PDB file contains no ATOM records!"
              ∧ c2 = "ValueError" ∧ m2 = "No ATOM records found in PDB file!")
       | _, _ => False
       end).
Proof.
  split.
  - intros lines.
    rewrite clean_pdb_for_dssp_lines_eq, clean_pdb_minimal_lines_eq.
    by case_bool_decide.
  - intros decode bytes.
    unfold OpenText.clean_pdb_for_dssp, OpenText.clean_pdb_minimal.
    destruct (decode bytes) as [content|c m]; [|by left].
    unfold App.clean_pdb_for_dssp, RobustPdbCleaner.clean_pdb_minimal.
    rewrite clean_pdb_for_dssp_lines_eq, clean_pdb_minimal_lines_eq.
    case_bool_decide; simpl.
    + right. split; [by exists content|done].
    + split; [done|by exists content].
Qed.

(** On a file that does not decode, both end with the decoding error. *)
Example minimal_implementations_undecodable :
  OpenText.clean_pdb_for_dssp ToolSamples.decode_but_255
    (String "255"%char EmptyString)
  = Threw "UnicodeDecodeError" "invalid start byte"
  ∧ OpenText.clean_pdb_minimal ToolSamples.decode_but_255
      (String "255"%char EmptyString)
    = Threw "UnicodeDecodeError" "invalid start byte".
Proof. split; reflexivity. Qed.

(** X2. The permissive filtering stage is idempotent on every input:
    filtering its own output changes nothing (no second HEADER, no second
    END, no line dropped). *)
Theorem permissive_idempotent lines :
  RobustPdbCleaner.clean_pdb_for_mkdssp_lines
    (RobustPdbCleaner.clean_pdb_for_mkdssp_lines lines) =
  RobustPdbCleaner.clean_pdb_for_mkdssp_lines lines.
Proof.
  apply mkdssp_fixpoint.
  - apply mkdssp_all_retained.
  - rewrite existsb_count. pose proof (mkdssp_has_header lines) as Hh.
    destruct (count is_header _); [lia|done].
  - apply mkdssp_last_END_prefix.
Qed.

(** X3. Permissive filtering loses no coordinate record and adds none, so
    minimal mode gives the same result (output or failure) on a
    permissively filtered document as on the original lines. *)
Theorem minimal_after_permissive lines :
  coordinate_lines (RobustPdbCleaner.clean_pdb_for_mkdssp_lines lines)
    = coordinate_lines lines
  ∧ App.clean_pdb_for_dssp_lines
      (RobustPdbCleaner.clean_pdb_for_mkdssp_lines lines)
    = App.clean_pdb_for_dssp_lines lines
  ∧ RobustPdbCleaner.clean_pdb_minimal_lines
      (RobustPdbCleaner.clean_pdb_for_mkdssp_lines lines)
    = RobustPdbCleaner.clean_pdb_minimal_lines lines.
Proof.
  split; [apply coordinate_lines_mkdssp|]. split.
  - by rewrite !clean_pdb_for_dssp_lines_eq, coordinate_lines_mkdssp.
  - by rewrite !clean_pdb_minimal_lines_eq, coordinate_lines_mkdssp.
Qed.

(** The lines minimal mode hands to [writelines] pass the permissive
    filter unchanged. *)
Lemma mkdssp_fixes_minimal_lines cs :
  Forall (λ line, is_coordinate line = true) cs →
  RobustPdbCleaner.clean_pdb_for_mkdssp_lines (HEADER_LINE :: cs ++ [END_LINE])
  = HEADER_LINE :: cs ++ [END_LINE].
Proof.
  intros Hcs. apply mkdssp_fixpoint.
  - constructor; [done|]. apply Forall_app. split; [|by repeat constructor].
    eapply Forall_impl; [exact Hcs|]. apply coordinate_is_retained.
  - reflexivity.
  - exists END_LINE. split; [|done].
    change (HEADER_LINE :: cs ++ [END_LINE])
      with ((HEADER_LINE :: cs) ++ [END_LINE]).
    apply last_snoc.
Qed.

(** A document of retained kinds that holds a HEADER record and whose
    last line does not begin with ['END'] gets one ['END\n'] appended. *)
Lemma mkdssp_appends_end doc e :
  Forall (λ line, is_retained line = true) doc →
  existsb is_header doc = true →
  last doc = Some e → String.prefix "END" e = false →
  RobustPdbCleaner.clean_pdb_for_mkdssp_lines doc = doc ++ [END_LINE].
Proof.
  intros Hall Hh Hlast He.
  assert (retained_lines doc = doc) as Hkept by by apply filter_all_true.
  rewrite mkdssp_append by by rewrite kept_lines_retained, Hkept, Hlast.
  unfold RobustPdbCleaner.add_header. rewrite filter_loop_spec; simpl.
  by rewrite Hh, Hkept.
Qed.

(** X5. Permissive mode keeps the HEADER records of its input and
    synthesizes one only when there is none: the output has as many HEADER
    records as the input, or exactly one, the literal, in first place,
    when the input has none; with a HEADER in the input nothing is put in
    front of the retained lines. *)
Theorem permissive_header_policy lines :
  count is_header (RobustPdbCleaner.clean_pdb_for_mkdssp_lines lines)
    = Nat.max 1 (count is_header lines)
  ∧ (count is_header lines = 0 →
     head (RobustPdbCleaner.clean_pdb_for_mkdssp_lines lines) = Some HEADER_LINE)
  ∧ (count is_header lines ≠ 0 →
     RobustPdbCleaner.clean_pdb_for_mkdssp_lines lines
       = RobustPdbCleaner.ensure_end (retained_lines lines)).
Proof.
  pose proof (count_retained _ lines header_is_retained) as Hcount.
  pose proof (has_header_spec lines) as Hh. rewrite Hcount in Hh.
  unfold RobustPdbCleaner.clean_pdb_for_mkdssp_lines.
  split; [|split].
  - assert (count is_header
              (RobustPdbCleaner.add_header (RobustPdbCleaner.filter_loop lines))
            = Nat.max 1 (count is_header lines)) as Hadd.
    { unfold RobustPdbCleaner.add_header.
      rewrite Hh, kept_lines_retained, negb_involutive.
      destruct (Nat.eqb _ 0) eqn:Hz.
      - apply Nat.eqb_eq in Hz. by rewrite count_cons, Hcount, Hz.
      - apply Nat.eqb_neq in Hz. rewrite Hcount. lia. }
    unfold RobustPdbCleaner.ensure_end.
    destruct (RobustPdbCleaner.needs_end _); [|done].
    rewrite count_app, Hadd.
    change (count is_header [END_LINE]) with 0. lia.
  - intros Hz. unfold RobustPdbCleaner.add_header, RobustPdbCleaner.ensure_end.
    rewrite Hh, Hz. simpl.
    by destruct (RobustPdbCleaner.needs_end _).
  - intros Hnz. unfold RobustPdbCleaner.add_header.
    rewrite Hh, kept_lines_retained.
    apply Nat.eqb_neq in Hnz. by rewrite Hnz.
Qed.

Lemma permissive_header_policy_witness :
  head (RobustPdbCleaner.clean_pdb_for_mkdssp_lines
          [Samples.remark; Samples.atom1]) = Some HEADER_LINE
  ∧ RobustPdbCleaner.clean_pdb_for_mkdssp_lines Samples.two_headers
    = RobustPdbCleaner.ensure_end (retained_lines Samples.two_headers).
Proof.
  split.
  - exact (proj1 (proj2 (permissive_header_policy
                           [Samples.remark; Samples.atom1])) eq_refl).
  - apply (proj2 (proj2 (permissive_header_policy Samples.two_headers))).
    discriminate.
Defined.

(** ** The written file *)

Import TextLines.

Lemma append_cons c s t : String c s +:+ t = String c (s +:+ t).
Proof. reflexivity. Qed.

Lemma append_nil_r s : s +:+ EmptyString = s.
Proof. induction s as [|c s IH]; [done|]. by rewrite append_cons, IH. Qed.

Lemma append_assoc s t u : (s +:+ t) +:+ u = s +:+ (t +:+ u).
Proof. induction s as [|c s IH]; [done|]. by rewrite !append_cons, IH. Qed.

Lemma writelines_app l1 l2 :
  writelines (l1 ++ l2) = writelines l1 +:+ writelines l2.
Proof.
  induction l1 as [|x l1 IH]; [done|].
  unfold writelines in *. simpl. by rewrite IH, append_assoc.
Qed.

Lemma writelines_cons x l : writelines (x :: l) = x +:+ writelines l.
Proof. reflexivity. Qed.

Lemma writelines_singleton x : writelines [x] = x.
Proof. unfold writelines. simpl. apply append_nil_r. Qed.

Lemma prefix_append p s t :
  String.prefix p s = true → String.prefix p (s +:+ t) = true.
Proof.
  revert s. induction p as [|a p IH]; intros s.
  - intros _. by destruct (s +:+ t).
  - intros (rest & -> & H)%prefix_cons_inv. simpl.
    destruct (Ascii.ascii_dec a a); [by apply IH|done].
Qed.

Lemma is_coordinate_append s t :
  is_coordinate s = true → is_coordinate (s +:+ t) = true.
Proof.
  unfold is_coordinate. intros [H|H]%orb_true_iff.
  - by rewrite (prefix_append _ _ t H).
  - by rewrite (prefix_append _ _ t H), orb_true_r.
Qed.

Lemma is_open_line_no_CR line : is_open_line line = true → no_CR line = true.
Proof.
  induction line as [|c rest IH]; [done|]. simpl.
  intros [[_ Hc]%andb_true_iff Hr]%andb_true_iff. rewrite Hc. simpl.
  destruct rest; [done|by apply IH].
Qed.

Lemma open_append_text o t :
  is_open_line o = true → is_text_line t = true →
  is_text_line (o +:+ t) = true.
Proof.
  intros Ho Ht. induction o as [|c rest IH]; [done|].
  simpl in Ho. apply andb_true_iff in Ho as [Hc Hr].
  change (String c rest +:+ t) with (String c (rest +:+ t)).
  destruct rest as [|c' rest'].
  - simpl. destruct t as [|ct t']; [done|]. by rewrite Hc.
  - specialize (IH Hr).
    change (String c' rest' +:+ t) with (String c' (rest' +:+ t)) in *.
    change (is_text_line (String c (String c' (rest' +:+ t))))
      with (negb (Ascii.eqb c LF) && negb (Ascii.eqb c CR)
            && is_text_line (String c' (rest' +:+ t))).
    by rewrite Hc, IH.
Qed.

Lemma well_split_cons_text line rest :
  is_text_line line = true → well_split rest = true →
  well_split (line :: rest) = true.
Proof.
  intros Hl Hr. simpl. destruct rest; [by rewrite Hl|by rewrite Hl].
Qed.

Lemma well_split_inv lines :
  well_split lines = true →
  Forall (λ line, is_text_line line = true) lines
  ∨ ∃ init o, lines = init ++ [o]
              ∧ Forall (λ line, is_text_line line = true) init
              ∧ is_open_line o = true.
Proof.
  induction lines as [|line rest IH]; [by left|].
  destruct rest as [|line' rest'].
  - simpl. intros [H|H]%orb_true_iff.
    + left. by repeat constructor.
    + right. exists [], line. by repeat split.
  - intros [Hl Hr]%andb_true_iff.
    destruct (IH Hr) as [Hall|(init & o & Heq & Hall & Ho)].
    + left. by constructor.
    + right. exists (line :: init), o. rewrite Heq. by repeat constructor.
Qed.

Lemma well_split_cons2 l l' ls :
  well_split (l :: l' :: ls) = is_text_line l && well_split (l' :: ls).
Proof. reflexivity. Qed.

Lemma is_text_line_cons c l :
  Ascii.eqb c LF = false → negb (Ascii.eqb c CR) = true →
  is_text_line l = true → is_text_line (String c l) = true.
Proof.
  intros Hlf Hcr Hl. destruct l as [|c' l']; [done|].
  change (is_text_line (String c (String c' l')))
    with (negb (Ascii.eqb c LF) && negb (Ascii.eqb c CR)
          && is_text_line (String c' l')).
  by rewrite Hlf, Hcr, Hl.
Qed.

Lemma is_open_line_cons c l :
  Ascii.eqb c LF = false → negb (Ascii.eqb c CR) = true →
  is_open_line l = true → is_open_line (String c l) = true.
Proof.
  intros Hlf Hcr Hl. destruct l as [|c' l']; [done|].
  change (is_open_line (String c (String c' l')))
    with (negb (Ascii.eqb c LF) && negb (Ascii.eqb c CR)
          && is_open_line (String c' l')).
  by rewrite Hlf, Hcr, Hl.
Qed.

Lemma splitlines_well_split s :
  no_CR s = true → well_split (splitlines_keepends s) = true.
Proof.
  induction s as [|c s IH]; [done|].
  intros [Hc Hs]%andb_true_iff. specialize (IH Hs).
  cbn [splitlines_keepends]. destruct (Ascii.eqb c LF) eqn:Hlf.
  - apply well_split_cons_text; [by simpl|done].
  - destruct (splitlines_keepends s) as [|l ls].
    + simpl. by rewrite Hlf, Hc.
    + destruct ls as [|l' ls'].
      * change (is_text_line l || is_open_line l = true) in IH.
        change (is_text_line (String c l) || is_open_line (String c l) = true).
        apply orb_true_iff in IH as [Hl|Hl].
        -- by rewrite is_text_line_cons.
        -- by rewrite (is_open_line_cons c l), orb_true_r.
      * rewrite well_split_cons2 in *.
        apply andb_true_iff in IH as [Hl Hr].
        by rewrite is_text_line_cons, Hr.
Qed.

Lemma readlines_well_split content : well_split (readlines content) = true.
Proof. apply splitlines_well_split, no_CR_translate. Qed.

Lemma well_split_filter (p : string → bool) lines :
  well_split lines = true →
  Forall (λ line, is_text_line line = true)
    (filter (λ line, p line = true) lines)
  ∨ ∃ init o, filter (λ line, p line = true) lines = init ++ [o]
              ∧ Forall (λ line, is_text_line line = true) init
              ∧ is_open_line o = true ∧ p o = true.
Proof.
  assert (∀ l, Forall (λ line, is_text_line line = true) l →
               Forall (λ line, is_text_line line = true)
                 (filter (λ line, p line = true) l)) as Hf.
  { intros l Hl. apply Forall_forall. intros x [_ Hx]%list_elem_of_filter.
    by apply (proj1 (Forall_forall _ _) Hl). }
  intros [Hall|(init & o & -> & Hall & Ho)]%well_split_inv.
  - left. by apply Hf.
  - rewrite filter_app, filter_cons, filter_nil.
    destruct (decide (p o = true)) as [Hp|Hp].
    + right. exists (filter (λ line, p line = true) init), o.
      split; [done|]. split; [by apply Hf|done].
    + left. rewrite app_nil_r. by apply Hf.
Qed.

(** A file that consists of the HEADER literal, terminated coordinate
    lines and the END literal is cleaned to itself. *)
Lemma clean_pdb_for_dssp_fixpoint cs :
  cs ≠ [] →
  Forall (λ line, is_text_line line = true) cs →
  Forall (λ line, is_coordinate line = true) cs →
  readlines (writelines (HEADER_LINE :: cs ++ [END_LINE]))
    = HEADER_LINE :: cs ++ [END_LINE]
  ∧ App.clean_pdb_for_dssp (writelines (HEADER_LINE :: cs ++ [END_LINE]))
    = Ok (writelines (HEADER_LINE :: cs ++ [END_LINE])).
Proof.
  intros Hne Htext Hcoord.
  assert (readlines (writelines (HEADER_LINE :: cs ++ [END_LINE]))
          = HEADER_LINE :: cs ++ [END_LINE]) as Hread.
  { apply readlines_writelines. constructor; [done|].
    apply Forall_app. split; [done|by repeat constructor]. }
  split; [done|].
  unfold App.clean_pdb_for_dssp.
  rewrite Hread, clean_pdb_for_dssp_lines_eq.
  assert (coordinate_lines (HEADER_LINE :: cs ++ [END_LINE]) = cs) as ->.
  { unfold coordinate_lines. rewrite filter_cons_False by done.
    rewrite filter_app, (filter_cons_False _ END_LINE) by done.
    rewrite filter_nil, app_nil_r. by apply filter_all_true. }
  by rewrite bool_decide_eq_false_2.
Qed.

Lemma file_minimal_agree content out :
  RobustPdbCleaner.clean_pdb_minimal content = Ok out ↔
  App.clean_pdb_for_dssp content = Ok out.
Proof.
  unfold App.clean_pdb_for_dssp, RobustPdbCleaner.clean_pdb_minimal.
  rewrite clean_pdb_for_dssp_lines_eq, clean_pdb_minimal_lines_eq.
  by case_bool_decide.
Qed.

Lemma no_CR_writelines_general lines :
  Forall (λ line, no_CR line = true) lines → no_CR (writelines lines) = true.
Proof.
  induction 1 as [|line lines Hl _ IH]; [done|].
  by rewrite writelines_cons, no_CR_app, Hl, IH.
Qed.

Lemma well_split_no_CR lines :
  well_split lines = true → Forall (λ line, no_CR line = true) lines.
Proof.
  intros [Hall|(init & o & -> & Hall & Ho)]%well_split_inv.
  - eapply Forall_impl; [exact Hall|]. apply is_text_line_no_CR.
  - apply Forall_app. split.
    + eapply Forall_impl; [exact Hall|]. apply is_text_line_no_CR.
    + constructor; [by apply is_open_line_no_CR|constructor].
Qed.

Lemma newline_terminated_append s t :
  t ≠ EmptyString → newline_terminated t = true →
  newline_terminated (s +:+ t) = true.
Proof.
  intros Hne Ht. induction s as [|c s IH]; [done|].
  change (String c s +:+ t) with (String c (s +:+ t)).
  cbn [newline_terminated].
  destruct (s +:+ t) eqn:E; [|done].
  destruct s as [|c' s'].
  - change (t = EmptyString) in E. congruence.
  - rewrite append_cons in E. discriminate.
Qed.

Lemma clean_pdb_for_dssp_written content out :
  App.clean_pdb_for_dssp content = Ok out →
  coordinate_lines (readlines content) ≠ []
  ∧ out = writelines
            (HEADER_LINE :: coordinate_lines (readlines content) ++ [END_LINE]).
Proof.
  unfold App.clean_pdb_for_dssp. rewrite clean_pdb_for_dssp_lines_eq.
  case_bool_decide; [done|]. intros Hrun. split; [done|congruence].
Qed.

Lemma open_not_text line :
  is_open_line line = true → is_text_line line = false.
Proof.
  induction line as [|c rest IH]; [done|].
  destruct rest as [|c' rest'].
  - simpl. intros [[Hc _]%andb_true_iff _]%andb_true_iff.
    by apply negb_true_iff in Hc.
  - change (is_open_line (String c (String c' rest')))
      with (negb (Ascii.eqb c LF) && negb (Ascii.eqb c CR)
            && is_open_line (String c' rest')).
    change (is_text_line (String c (String c' rest')))
      with (negb (Ascii.eqb c LF) && negb (Ascii.eqb c CR)
            && is_text_line (String c' rest')).
    intros [_ Hr]%andb_true_iff. rewrite (IH Hr). apply andb_false_r.
Qed.

Lemma clean_pdb_for_dssp_second_run content out :
  App.clean_pdb_for_dssp content = Ok out →
  ∃ out2,
    (if bool_decide (Forall (λ line, is_text_line line = true)
                       (coordinate_lines (readlines content)))
     then out2 = out else out2 = out +:+ END_LINE)
    ∧ App.clean_pdb_for_dssp out = Ok out2
    ∧ App.clean_pdb_for_dssp out2 = Ok out2.
Proof.
  intros [Hne ->]%clean_pdb_for_dssp_written.
  pose proof (coordinate_lines_Forall (readlines content)) as Hcoord.
  destruct (well_split_filter is_coordinate _ (readlines_well_split content))
    as [Htext|(init & o & Heq & Htext & Ho & Hco)];
    fold (coordinate_lines (readlines content)) in *.
  - exists (writelines (HEADER_LINE :: coordinate_lines (readlines content)
                          ++ [END_LINE])).
    split; [by rewrite bool_decide_eq_true_2|].
    by destruct (clean_pdb_for_dssp_fixpoint _ Hne Htext Hcoord) as [_ ->].
  - rewrite Heq in *. apply Forall_app in Hcoord as [Hinit _].
    assert (¬ Forall (λ line, is_text_line line = true) (init ++ [o])) as Hopen.
    { intros [_ Hlast]%Forall_app. apply Forall_cons in Hlast as [Hlast _].
      by rewrite (open_not_text _ Ho) in Hlast. }
    set (cs := init ++ [o +:+ END_LINE]).
    assert (cs ≠ []) as Hcs by (subst cs; by destruct init).
    assert (Forall (λ line, is_text_line line = true) cs) as Hcst.
    { apply Forall_app. split; [done|].
      constructor; [by apply open_append_text|constructor]. }
    assert (Forall (λ line, is_coordinate line = true) cs) as Hcsc.
    { apply Forall_app. split; [done|].
      constructor; [by apply is_coordinate_append|constructor]. }
    assert (writelines (HEADER_LINE :: (init ++ [o]) ++ [END_LINE])
            = writelines (HEADER_LINE :: cs)) as Hout.
    { subst cs. rewrite !writelines_cons, !writelines_app, !writelines_singleton.
      by rewrite append_assoc. }
    assert (writelines (HEADER_LINE :: cs ++ [END_LINE])
            = writelines (HEADER_LINE :: cs) +:+ END_LINE) as Hout2.
    { rewrite !writelines_cons, writelines_app, writelines_singleton.
      by rewrite append_assoc. }
    exists (writelines (HEADER_LINE :: cs ++ [END_LINE])).
    split; [by rewrite bool_decide_eq_false_2, Hout, Hout2|]. split.
    + rewrite Hout. unfold App.clean_pdb_for_dssp.
      rewrite readlines_writelines by by constructor.
      rewrite clean_pdb_for_dssp_lines_eq.
      assert (coordinate_lines (HEADER_LINE :: cs) = cs) as ->.
      { unfold coordinate_lines. rewrite filter_cons_False by done.
        by apply filter_all_true. }
      by rewrite bool_decide_eq_false_2.
    + by destruct (clean_pdb_for_dssp_fixpoint _ Hcs Hcst Hcsc) as [_ ->].
Qed.

(** X4. The permissive filter on a file minimal mode wrote: the lines of
    the file pass the filter unchanged when every coordinate line of the
    input was terminated; otherwise (the last coordinate line had no
    terminator and ['END\n'] was written onto it) the filter appends one
    ['END\n']. Both implementations of minimal mode. *)
Theorem permissive_after_minimal content out :
  App.clean_pdb_for_dssp content = Ok out
  ∨ RobustPdbCleaner.clean_pdb_minimal content = Ok out →
  RobustPdbCleaner.clean_pdb_for_mkdssp_lines (readlines out)
  = if bool_decide (Forall (λ line, is_text_line line = true)
                      (coordinate_lines (readlines content)))
    then readlines out else readlines out ++ [END_LINE].
Proof.
  intros Hrun.
  assert (App.clean_pdb_for_dssp content = Ok out) as Happ.
  { destruct Hrun as [H|H]; [done|by apply file_minimal_agree]. }
  apply clean_pdb_for_dssp_written in Happ as [Hne ->].
  pose proof (coordinate_lines_Forall (readlines content)) as Hcoord.
  destruct (well_split_filter is_coordinate _ (readlines_well_split content))
    as [Htext|(init & o & Heq & Htext & Ho & Hco)];
    fold (coordinate_lines (readlines content)) in *.
  - rewrite bool_decide_eq_true_2 by done.
    destruct (clean_pdb_for_dssp_fixpoint _ Hne Htext Hcoord) as [-> _].
    by apply mkdssp_fixes_minimal_lines.
  - rewrite Heq in *. apply Forall_app in Hcoord as [Hinit _].
    rewrite bool_decide_eq_false_2.
    2: { intros [_ Hlast]%Forall_app. apply Forall_cons in Hlast as [Hlast _].
         by rewrite (open_not_text _ Ho) in Hlast. }
    set (cs := init ++ [o +:+ END_LINE]).
    assert (Forall (λ line, is_text_line line = true) cs) as Hcst.
    { apply Forall_app. split; [done|].
      constructor; [by apply open_append_text|constructor]. }
    assert (Forall (λ line, is_coordinate line = true) cs) as Hcsc.
    { apply Forall_app. split; [done|].
      constructor; [by apply is_coordinate_append|constructor]. }
    assert (writelines (HEADER_LINE :: (init ++ [o]) ++ [END_LINE])
            = writelines (HEADER_LINE :: cs)) as ->.
    { subst cs. rewrite !writelines_cons, !writelines_app, !writelines_singleton.
      by rewrite append_assoc. }
    rewrite readlines_writelines by by constructor.
    apply (mkdssp_appends_end _ (o +:+ END_LINE)).
    + constructor; [done|].
      eapply Forall_impl; [exact Hcsc|]. apply coordinate_is_retained.
    + reflexivity.
    + subst cs. rewrite app_comm_cons. apply last_snoc.
    + apply coordinate_not_END_prefix. by apply is_coordinate_append.
Qed.

Lemma permissive_after_minimal_witness :
  RobustPdbCleaner.clean_pdb_for_mkdssp_lines
    (readlines (HEADER_LINE +:+ Samples.unterminated +:+ END_LINE))
  = readlines (HEADER_LINE +:+ Samples.unterminated +:+ END_LINE) ++ [END_LINE].
Proof.
  pose proof (permissive_after_minimal Samples.unterminated
                (HEADER_LINE +:+ Samples.unterminated +:+ END_LINE)
                (or_introl eq_refl)) as H.
  rewrite bool_decide_eq_false_2 in H; [exact H|].
  intros Hall. apply Forall_cons in Hall as [Hall _]. discriminate.
Defined.

Lemma clean_pdb_for_dssp_shape content out :
  App.clean_pdb_for_dssp content = Ok out →
  out = HEADER_LINE
        +:+ writelines (coordinate_lines (readlines content)) +:+ END_LINE
  ∧ no_CR out = true
  ∧ newline_terminated out = true.
Proof.
  intros [_ ->]%clean_pdb_for_dssp_written.
  assert (writelines (HEADER_LINE :: coordinate_lines (readlines content)
                        ++ [END_LINE])
          = HEADER_LINE
            +:+ writelines (coordinate_lines (readlines content)) +:+ END_LINE)
    as Hshape.
  { by rewrite writelines_cons, writelines_app, writelines_singleton. }
  split; [exact Hshape|]. split.
  - apply no_CR_writelines_general. constructor; [done|].
    apply Forall_app. split; [|by repeat constructor].
    pose proof (well_split_no_CR _ (readlines_well_split content)) as Hall.
    apply Forall_forall. intros line [_ Hin]%list_elem_of_filter.
    by apply (proj1 (Forall_forall _ _) Hall).
  - rewrite Hshape, <- append_assoc.
    by apply newline_terminated_append.
Qed.

Lemma clean_pdb_for_dssp_read_back content out :
  newline_terminated (translate_newlines content) = true →
  App.clean_pdb_for_dssp content = Ok out →
  readlines out
    = HEADER_LINE :: coordinate_lines (readlines content) ++ [END_LINE]
  ∧ App.clean_pdb_for_dssp out = Ok out
  ∧ sanitized_document (readlines out) = true.
Proof.
  intros Hterm%readlines_text_lines [Hne ->]%clean_pdb_for_dssp_written.
  assert (Forall (λ line, is_text_line line = true)
            (coordinate_lines (readlines content))) as Htext.
  { apply Forall_forall. intros line [_ Hin]%list_elem_of_filter.
    by apply (proj1 (Forall_forall _ _) Hterm). }
  destruct (clean_pdb_for_dssp_fixpoint _ Hne Htext
              (coordinate_lines_Forall _)) as [Hread Hrun].
  split; [done|]. split; [done|].
  rewrite Hread. by apply minimal_output_sanitized.
Qed.

(** X6. Whatever the input file, the file minimal mode writes starts with
    the HEADER literal, ends with ['END\n'], has the coordinate lines of
    the input in between and nothing else, and holds no carriage return:
    Windows and old Mac line endings are normalised. *)
Theorem minimal_written_file_shape content out :
  App.clean_pdb_for_dssp content = Ok out
  ∨ RobustPdbCleaner.clean_pdb_minimal content = Ok out →
  out = HEADER_LINE
        +:+ writelines (coordinate_lines (readlines content)) +:+ END_LINE
  ∧ no_CR out = true
  ∧ newline_terminated out = true.
Proof.
  intros Hrun. apply clean_pdb_for_dssp_shape.
  destruct Hrun as [H|H]; [done|by apply file_minimal_agree].
Qed.

Lemma minimal_written_file_shape_witness :
  no_CR (HEADER_LINE +:+ Samples.atom1 +:+ END_LINE) = true
  ∧ newline_terminated (HEADER_LINE +:+ Samples.atom1 +:+ END_LINE) = true.
Proof.
  exact (proj2 (minimal_written_file_shape Samples.crlf_file
                  (HEADER_LINE +:+ Samples.atom1 +:+ END_LINE)
                  (or_introl eq_refl))).
Defined.

(** X7. File to file, minimal mode is stable from its second run on, for
    every input: cleaning the file it wrote succeeds and writes that file
    again when every coordinate line of the input was terminated, and
    that file with one more ['END\n'] otherwise (the last coordinate line
    had no terminator); cleaning the result once more changes nothing.
    Both implementations behave so. *)
Theorem minimal_file_stabilises content out :
  App.clean_pdb_for_dssp content = Ok out →
  ∃ out2,
    (if bool_decide (Forall (λ line, is_text_line line = true)
                       (coordinate_lines (readlines content)))
     then out2 = out else out2 = out +:+ END_LINE)
    ∧ App.clean_pdb_for_dssp out = Ok out2
    ∧ App.clean_pdb_for_dssp out2 = Ok out2
    ∧ RobustPdbCleaner.clean_pdb_minimal out = Ok out2
    ∧ RobustPdbCleaner.clean_pdb_minimal out2 = Ok out2.
Proof.
  intros (out2 & Hcase & H1 & H2)%clean_pdb_for_dssp_second_run.
  exists out2. repeat split; try done; by apply file_minimal_agree.
Qed.

Lemma minimal_file_stabilises_witness :
  ∃ out2,
    out2 = (HEADER_LINE +:+ Samples.unterminated +:+ END_LINE) +:+ END_LINE
    ∧ App.clean_pdb_for_dssp (HEADER_LINE +:+ Samples.unterminated +:+ END_LINE)
      = Ok out2
    ∧ App.clean_pdb_for_dssp out2 = Ok out2
    ∧ RobustPdbCleaner.clean_pdb_minimal
        (HEADER_LINE +:+ Samples.unterminated +:+ END_LINE) = Ok out2
    ∧ RobustPdbCleaner.clean_pdb_minimal out2 = Ok out2.
Proof.
  destruct (minimal_file_stabilises Samples.unterminated
              (HEADER_LINE +:+ Samples.unterminated +:+ END_LINE) eq_refl)
    as (out2 & Hcase & Hrest).
  exists out2. split; [|exact Hrest].
  rewrite bool_decide_eq_false_2 in Hcase; [exact Hcase|].
  intros Hall. apply Forall_cons in Hall as [Hall _]. discriminate.
Defined.

(** X8. File to file, minimal mode is idempotent on every text whose last
    line is terminated: the written file is read back as exactly the
    lines produced, and cleaning the written file writes it again. *)
Theorem minimal_file_idempotent_when_terminated content out :
  newline_terminated (translate_newlines content) = true →
  App.clean_pdb_for_dssp content = Ok out →
  readlines out
    = HEADER_LINE :: coordinate_lines (readlines content) ++ [END_LINE]
  ∧ App.clean_pdb_for_dssp out = Ok out
  ∧ RobustPdbCleaner.clean_pdb_minimal out = Ok out.
Proof.
  intros Hterm Hrun.
  destruct (clean_pdb_for_dssp_read_back _ _ Hterm Hrun) as (Hread & Hagain & _).
  split; [done|]. split; [done|]. by apply file_minimal_agree.
Qed.

Lemma minimal_file_idempotent_when_terminated_witness :
  App.clean_pdb_for_dssp (HEADER_LINE +:+ Samples.atom1 +:+ END_LINE)
  = Ok (HEADER_LINE +:+ Samples.atom1 +:+ END_LINE).
Proof.
  exact (proj1 (proj2 (minimal_file_idempotent_when_terminated
                         Samples.crlf_file
                         (HEADER_LINE +:+ Samples.atom1 +:+ END_LINE)
                         eq_refl eq_refl))).
Defined.

(** ** More on the batch loop *)

Import Page.

Lemma process_file_raw_dir total i f st :
  raw_dir (process_file total i f st) = store_raw (raw_dir st) f.
Proof.
  unfold process_file. rewrite clean_into_fresh.
  by destruct (App.clean_pdb_for_dssp _).
Qed.

Lemma batch_loop_raw_dir total i files st :
  raw_dir (batch_loop total i files st) = foldl store_raw (raw_dir st) files.
Proof.
  revert i st. induction files as [|f files IH]; intros i st; [done|].
  simpl. by rewrite IH, process_file_raw_dir.
Qed.

Lemma batch_loop_ui total i files st :
  ui (batch_loop total i files st) =
  ui st ++ imap (λ j, event_of total (i + j)) files.
Proof.
  revert i st. induction files as [|f files IH]; intros i st.
  { simpl. by rewrite app_nil_r. }
  simpl. rewrite IH.
  destruct (process_file_ui total i f st) as (ev & -> & Hev).
  rewrite <- app_assoc. f_equal. simpl. f_equal.
  - unfold event_of. rewrite Nat.add_0_r.
    by destruct (App.clean_pdb_for_dssp _).
  - apply imap_ext. intros j g _. simpl. f_equal. lia.
Qed.

Lemma store_raw_untouched files dir n :
  (∀ g, g ∈ files → name g ≠ n) →
  foldl store_raw dir files !! n = dir !! n.
Proof.
  revert dir. induction files as [|f files IH]; intros dir Hn; [done|].
  simpl. rewrite IH.
  - unfold store_raw. apply lookup_insert_ne. apply Hn. by left.
  - intros g Hg. apply Hn. by right.
Qed.

Lemma store_cleaned_untouched files dir n :
  (∀ g, g ∈ files → sanitizes g = true → name g ≠ n) →
  foldl store_cleaned dir files !! n = dir !! n.
Proof.
  revert dir. induction files as [|f files IH]; intros dir Hn; [done|].
  simpl. rewrite IH.
  - unfold store_cleaned.
    destruct (App.clean_pdb_for_dssp (getbuffer f)) eqn:Hrun; [|done].
    apply lookup_insert_ne. apply Hn; [by left|].
    unfold sanitizes. by rewrite Hrun.
  - intros g Hg. apply Hn. by right.
Qed.

(** X9. Uploads under one name overwrite one another, the last one wins:
    after the loop [raw_dir] holds the bytes of the last upload of each
    name, sanitized or not; [input_dir] holds its cleaned text when it
    sanitizes; and when it does not, the entry an earlier upload of that
    name left in [input_dir] stays there. *)
Theorem batch_last_upload_wins before f after :
  (∀ g, g ∈ after → name g ≠ name f) →
  let st := process_uploads (before ++ f :: after) in
  raw_dir st !! name f = Some (getbuffer f)
  ∧ (∀ cleaned, App.clean_pdb_for_dssp (getbuffer f) = Ok cleaned →
       input_dir st !! name f = Some cleaned)
  ∧ (sanitizes f = false →
       input_dir st !! name f = input_dir (process_uploads before) !! name f).
Proof.
  intros Hlast st. subst st. unfold process_uploads.
  rewrite batch_loop_raw_dir, !batch_loop_input_dir; simpl.
  rewrite !foldl_app; simpl.
  split; [|split].
  - rewrite store_raw_untouched by done.
    unfold store_raw. apply lookup_insert_eq.
  - intros cleaned Hrun.
    rewrite store_cleaned_untouched by (intros g Hg _; by apply Hlast).
    unfold store_cleaned. rewrite Hrun. apply lookup_insert_eq.
  - intros Hf.
    rewrite store_cleaned_untouched by (intros g Hg _; by apply Hlast).
    unfold store_cleaned, sanitizes in *.
    by destruct (App.clean_pdb_for_dssp (getbuffer f)).
Qed.

Lemma batch_last_upload_wins_witness :
  raw_dir (process_uploads [Samples.good1; Samples.bad1; Samples.good3])
    !! "a.pdb" = Some Samples.remark
  ∧ input_dir (process_uploads [Samples.good1; Samples.bad1; Samples.good3])
      !! "a.pdb"
    = input_dir (process_uploads [Samples.good1]) !! "a.pdb".
Proof.
  pose proof (batch_last_upload_wins [Samples.good1] Samples.bad1
                [Samples.good3]) as H.
  simpl in H. destruct H as (Hraw & _ & Hstale).
  - intros g Hg. apply list_elem_of_singleton in Hg as ->. done.
  - split; [exact Hraw|]. by apply Hstale.
Defined.

Lemma store_cleaned_ok dir f :
  sanitizes f = true → ∃ c, store_cleaned dir f = <[name f := c]> dir.
Proof.
  unfold store_cleaned, sanitizes.
  destruct (App.clean_pdb_for_dssp _); [eauto|done].
Qed.

Lemma store_cleaned_fails dir f :
  sanitizes f ≠ true → store_cleaned dir f = dir.
Proof.
  unfold store_cleaned, sanitizes.
  by destruct (App.clean_pdb_for_dssp _).
Qed.

Lemma store_cleaned_size_le files dir :
  (size (foldl store_cleaned dir files)
   ≤ size dir + length (filter (λ f, sanitizes f = true) files))%nat.
Proof.
  revert dir. induction files as [|f files IH]; intros dir; simpl; [lia|].
  etransitivity; [apply IH|]. rewrite filter_cons.
  destruct (decide (sanitizes f = true)) as [Hs|Hs].
  - destruct (store_cleaned_ok dir f Hs) as [c ->].
    rewrite map_size_insert. destruct (dir !! name f); simpl; lia.
  - rewrite (store_cleaned_fails dir f Hs). lia.
Qed.

Lemma store_cleaned_size_eq files dir :
  NoDup (file_names files) →
  (∀ f, f ∈ files → dir !! name f = None) →
  size (foldl store_cleaned dir files)
  = (size dir + length (filter (λ f, sanitizes f = true) files))%nat.
Proof.
  revert dir. induction files as [|f files IH]; intros dir Hnd Hfresh;
    simpl; [lia|].
  apply NoDup_cons in Hnd as [Hf Hnd].
  rewrite filter_cons.
  destruct (decide (sanitizes f = true)) as [Hs|Hs].
  - destruct (store_cleaned_ok dir f Hs) as [c ->].
    rewrite IH; [|done|].
    + rewrite map_size_insert_None by (apply Hfresh; by left). simpl. lia.
    + intros g Hg. rewrite lookup_insert_ne; [apply Hfresh; by right|].
      intros Heq. apply Hf. rewrite Heq.
      by apply list_elem_of_fmap_2.
  - rewrite (store_cleaned_fails dir f Hs). apply IH; [done|].
    intros g Hg. apply Hfresh. by right.
Qed.

(** X10. [processed_count] counts uploads, the directory counts names: the
    directory handed to the calculator never holds more files than
    [processed_count] says, which is at most the number of uploads; the
    two agree when the uploads have distinct names. *)
Theorem batch_directory_size uploaded_files :
  let st := process_uploads uploaded_files in
  (size (input_dir st) ≤ processed_count st)%nat
  ∧ (processed_count st ≤ length uploaded_files)%nat
  ∧ (NoDup (file_names uploaded_files) →
     size (input_dir st) = processed_count st).
Proof.
  intros st. subst st. unfold process_uploads.
  rewrite batch_loop_input_dir, batch_loop_count; simpl.
  split; [|split].
  - pose proof (store_cleaned_size_le uploaded_files ∅) as H.
    by rewrite map_size_empty in H.
  - apply length_filter.
  - intros Hnd. rewrite store_cleaned_size_eq; [|done|].
    + by rewrite map_size_empty.
    + intros f _. apply lookup_empty.
Qed.

Lemma batch_directory_size_witness :
  size (input_dir
          (process_uploads [Samples.good1; Samples.empty2; Samples.good3]))
  = processed_count
      (process_uploads [Samples.good1; Samples.empty2; Samples.good3]).
Proof.
  apply (proj2 (proj2 (batch_directory_size
                         [Samples.good1; Samples.empty2; Samples.good3]))).
  repeat (apply NoDup_cons; split;
          [intros Hin;
           repeat (apply elem_of_cons in Hin as [Hin|Hin]; [discriminate|]);
           by apply elem_of_nil in Hin|]).
  apply NoDup_nil_2.
Defined.

(** X11. Every file in the directory handed to the calculator is the
    cleaned text of an upload of that name: the HEADER literal, that
    upload's coordinate lines, ['END\n'], without carriage returns; and
    when the upload ends with a line terminator, the file reads back as a
    Sanitized Document. *)
Theorem batch_hands_over_cleaned_files uploaded_files n cleaned :
  input_dir (process_uploads uploaded_files) !! n = Some cleaned →
  ∃ g, g ∈ uploaded_files ∧ name g = n
       ∧ cleaned = HEADER_LINE
                   +:+ writelines (coordinate_lines (readlines (getbuffer g)))
                   +:+ END_LINE
       ∧ no_CR cleaned = true
       ∧ (newline_terminated (translate_newlines (getbuffer g)) = true →
          sanitized_document (readlines cleaned) = true).
Proof.
  unfold process_uploads. rewrite batch_loop_input_dir; simpl.
  intros [Hl|(g & Hg & Hn & Hrun)]%store_cleaned_lookup.
  { by rewrite lookup_empty in Hl. }
  exists g. split; [done|]. split; [done|].
  destruct (clean_pdb_for_dssp_shape _ _ Hrun) as (Hshape & Hcr & _).
  split; [done|]. split; [done|].
  intros Hterm.
  by destruct (clean_pdb_for_dssp_read_back _ _ Hterm Hrun) as (_ & _ & ?).
Qed.

Lemma batch_hands_over_cleaned_files_witness :
  ∃ g, g ∈ [Samples.good1; Samples.empty2; Samples.good3]
       ∧ name g = "c.pdb"
       ∧ HEADER_LINE +:+ Samples.hetatm +:+ END_LINE
         = HEADER_LINE
           +:+ writelines (coordinate_lines (readlines (getbuffer g)))
           +:+ END_LINE
       ∧ no_CR (HEADER_LINE +:+ Samples.hetatm +:+ END_LINE) = true
       ∧ (newline_terminated (translate_newlines (getbuffer g)) = true →
          sanitized_document
            (readlines (HEADER_LINE +:+ Samples.hetatm +:+ END_LINE)) = true).
Proof.
  exact (batch_hands_over_cleaned_files
           [Samples.good1; Samples.empty2; Samples.good3] "c.pdb"
           (HEADER_LINE +:+ Samples.hetatm +:+ END_LINE) eq_refl).
Defined.

(** X12. The page shows one line per upload, in upload order, after the
    two opening lines: the progress [(i + 1) / n] for the upload at index
    [i] when it sanitizes, its error otherwise. So when the last upload
    fails the progress bar never reaches [n / n]. *)
Theorem batch_log uploaded_files :
  let n := length uploaded_files in
  let st := process_uploads uploaded_files in
  ui st = [InfoProcessing n; ProgressStart] ++ imap (event_of n) uploaded_files
  ∧ length (ui st) = (2 + n)%nat
  ∧ (∀ init f, uploaded_files = init ++ [f] → sanitizes f = false →
       Progress n n ∉ ui st).
Proof.
  intros n st. subst n st. unfold process_uploads.
  rewrite batch_loop_ui; simpl.
  split; [done|]. split; [by rewrite length_imap|].
  intros init f -> Hf Hin.
  repeat (apply elem_of_cons in Hin as [Hin|Hin]; [discriminate|]).
  rewrite imap_app in Hin. apply elem_of_app in Hin as [Hin|Hin].
  - apply elem_of_lookup_imap in Hin as (j & g & Hev & Hj).
    apply lookup_lt_Some in Hj. unfold event_of in Hev.
    destruct (App.clean_pdb_for_dssp (getbuffer g)); [|done].
    injection Hev as Hev. rewrite length_app in Hev. simpl in Hev. lia.
  - simpl in Hin. apply list_elem_of_singleton in Hin.
    unfold event_of, sanitizes in *.
    by destruct (App.clean_pdb_for_dssp (getbuffer f)).
Qed.

Lemma batch_log_witness :
  Progress 2 2 ∉ ui (process_uploads [Samples.good1; Samples.empty2]).
Proof.
  exact (proj2 (proj2 (batch_log [Samples.good1; Samples.empty2]))
           [Samples.good1] Samples.empty2 eq_refl eq_refl).
Defined.

(** ** The preview selector *)

(** X13. The preview shows the first upload of the selected name: for
    every name the selector offers, [next] finds a file, it has that name
    and no earlier upload has it (so a second upload under the same name
    cannot be previewed); for any other name the generator is exhausted
    ([StopIteration]). *)
Theorem preview_selects_first_of_name uploaded_files n :
  (n ∈ file_names uploaded_files →
   ∃ before f after,
     uploaded_files = before ++ f :: after
     ∧ name f = n
     ∧ (n ∉ file_names before)
     ∧ selected_file uploaded_files n = Some f)
  ∧ (n ∉ file_names uploaded_files → selected_file uploaded_files n = None).
Proof.
  unfold file_names.
  induction uploaded_files as [|f files [IHin IHout]]; split.
  - intros Hin. by apply elem_of_nil in Hin.
  - done.
  - intros Hin. simpl. destruct (String.eqb (name f) n) eqn:Heq.
    + apply String.eqb_eq in Heq. exists [], f, files. repeat split; try done.
      apply not_elem_of_nil.
    + apply eqb_neq in Heq. rewrite fmap_cons in Hin.
      apply elem_of_cons in Hin as [Hin|Hin]; [congruence|].
      destruct (IHin Hin) as (before & g & after & -> & Hn & Hfirst & Hsel).
      exists (f :: before), g, after. repeat split; try done.
      rewrite fmap_cons. intros [Hx|Hx]%elem_of_cons; [congruence|done].
  - intros Hout. simpl. rewrite fmap_cons in Hout.
    apply not_elem_of_cons in Hout as [Hne Hout].
    destruct (String.eqb (name f) n) eqn:Heq.
    + apply String.eqb_eq in Heq. congruence.
    + by apply IHout.
Qed.

Lemma preview_selects_first_of_name_witness :
  ∃ before f after,
    [Samples.good1; Samples.bad1; Samples.good3] = before ++ f :: after
    ∧ name f = "a.pdb"
    ∧ ("a.pdb" ∉ file_names before)
    ∧ selected_file [Samples.good1; Samples.bad1; Samples.good3] "a.pdb"
      = Some f.
Proof.
  apply (proj1 (preview_selects_first_of_name
                  [Samples.good1; Samples.bad1; Samples.good3] "a.pdb")).
  by left.
Defined.

(** ** The command line of the cleaner *)

Import Script.

Section CleanerMainFacts.

Variable parse_and_save : string → outcome string.
Variable mkdssp : option string → outcome completed_process.

Local Abbreviation main := (CleanerMain.main parse_and_save mkdssp).
Local Abbreviation fallback := (CleanerMain.fallback mkdssp).

Lemma cleaner_mkdssp_writes fs inp out fs1 :
  CleanerMain.clean_pdb_for_mkdssp parse_and_save fs inp out = Returned fs1 →
  ∃ text, fs1 = <[out := text]> fs.
Proof.
  unfold CleanerMain.clean_pdb_for_mkdssp.
  destruct (fs !! inp) as [content|]; [|done].
  destruct (parse_and_save content) as [saved|]; [|done].
  rewrite lookup_insert_eq. intros [= <-].
  eexists. apply insert_insert_eq.
Qed.

Lemma cleaner_minimal_writes fs inp out fs2 :
  CleanerMain.clean_pdb_minimal fs inp out = Returned fs2 →
  ∃ text, fs2 = <[out := text]> fs.
Proof.
  unfold CleanerMain.clean_pdb_minimal.
  destruct (fs !! inp) as [content|]; [|done].
  destruct (of_result _) as [cleaned|]; [|done].
  intros [= <-]. eauto.
Qed.

(** What holds after the fallback, given that it held before. *)
Lemma fallback_spec fs inp out said runs c1 :
  runs = [c1] → c1 = fs !! out →
  let r := fallback fs inp out said runs in
  CleanerMain.exit_status r = 0
  ∧ (∀ p, p ≠ out → CleanerMain.files r !! p = fs !! p)
  ∧ last (CleanerMain.mkdssp_runs r) = Some (CleanerMain.files r !! out)
  ∧ (CleanerMain.mkdssp_runs r = [c1]
     ∨ ∃ c2, CleanerMain.mkdssp_runs r = [c1; c2]).
Proof.
  intros -> -> r. subst r. unfold CleanerMain.fallback.
  destruct (CleanerMain.clean_pdb_minimal fs inp out) as [fs2|c m] eqn:Hmin.
  - apply cleaner_minimal_writes in Hmin as [text ->].
    assert (∀ p, p ≠ out → <[out:=text]> fs !! p = fs !! p) as Hframe.
    { intros p Hp. by apply lookup_insert_ne. }
    destruct (mkdssp _); simpl; repeat split; eauto.
  - simpl. repeat split; eauto.
Qed.

(** X14. The cleaner script exits with status 1, touching nothing and
    running nothing, exactly when it is given fewer than two arguments;
    otherwise it exits with status 0 (every exception is caught and
    printed), and the only file it can change is [output_file]. *)
Theorem cleaner_main_touches_only_output argv fs :
  let r := main argv fs in
  CleanerMain.exit_status r = (if decide (length argv < 3) then 1 else 0)
  ∧ (length argv < 3 →
     CleanerMain.files r = fs ∧ CleanerMain.mkdssp_runs r = []
     ∧ CleanerMain.printed r = [CleanerMain.Usage])
  ∧ (∀ p, argv !! 2 ≠ Some p → CleanerMain.files r !! p = fs !! p).
Proof.
  intros r. subst r.
  destruct argv as [|a0 [|inp [|out rest]]]; try (simpl; by repeat split).
  rewrite decide_False by (simpl; lia).
  split; [|split; [simpl; lia|]].
  - unfold CleanerMain.main.
    destruct (CleanerMain.clean_pdb_for_mkdssp _ _ _ _) as [fs1|]; [|done].
    destruct (mkdssp _) as [res|]; [|done].
    destruct (Z.eqb _ 0); [done|].
    by destruct (fallback_spec fs1 inp out
                   ([CleanerMain.Cleaning inp]
                    ++ [CleanerMain.Saved out; CleanerMain.Testing]
                    ++ [CleanerMain.MkdsspFailed (stderr res);
                        CleanerMain.TryingMinimal])
                   [fs1 !! out] _ eq_refl eq_refl) as [? _].
  - intros p Hp. assert (p ≠ out) as Hne by (intros ->; by apply Hp).
    unfold CleanerMain.main.
    destruct (CleanerMain.clean_pdb_for_mkdssp _ _ _ _) as [fs1|] eqn:Hperm;
      [|done].
    apply cleaner_mkdssp_writes in Hperm as [text ->].
    assert (<[out:=text]> fs !! p = fs !! p) as Hframe
      by by apply lookup_insert_ne.
    destruct (mkdssp _) as [res|]; [|done].
    destruct (Z.eqb _ 0); [done|].
    destruct (fallback_spec (<[out:=text]> fs) inp out
                ([CleanerMain.Cleaning inp]
                 ++ [CleanerMain.Saved out; CleanerMain.Testing]
                 ++ [CleanerMain.MkdsspFailed (stderr res);
                     CleanerMain.TryingMinimal])
                [<[out:=text]> fs !! out] _ eq_refl eq_refl)
      as (_ & Hf & _).
    rewrite <- Hframe. rewrite <- app_assoc. by apply Hf.
Qed.

(** X15. The cleaner script runs [mkdssp] at most twice; a second run
    happens only after the first returned a non-zero code (the minimal
    fallback is never tried on a file [mkdssp] accepted); and whenever
    [mkdssp] was run, the file left at [output_file] is the one it was
    last run on. *)
Theorem cleaner_main_mkdssp_runs a0 inp out rest fs :
  let r := main (a0 :: inp :: out :: rest) fs in
  (length (CleanerMain.mkdssp_runs r) ≤ 2)%nat
  ∧ (CleanerMain.mkdssp_runs r ≠ [] →
     last (CleanerMain.mkdssp_runs r) = Some (CleanerMain.files r !! out))
  ∧ (∀ c1 c2, CleanerMain.mkdssp_runs r = [c1; c2] →
       ∃ res, mkdssp c1 = Returned res ∧ returncode res ≠ 0%Z).
Proof.
  intros r. subst r. unfold CleanerMain.main.
  destruct (CleanerMain.clean_pdb_for_mkdssp _ _ _ _) as [fs1|].
  2: { simpl. split; [lia|]. split; [by intros []|by intros c1 c2 [=]]. }
  destruct (mkdssp (fs1 !! out)) as [res|] eqn:Hrun.
  2: { simpl. split; [lia|]. split; [done|by intros c1 c2 [=]]. }
  destruct (Z.eqb (returncode res) 0) eqn:Hrc.
  { simpl. split; [lia|]. split; [done|by intros c1 c2 [=]]. }
  apply Z.eqb_neq in Hrc.
  destruct (fallback_spec fs1 inp out
              (([CleanerMain.Cleaning inp]
                ++ [CleanerMain.Saved out; CleanerMain.Testing])
               ++ [CleanerMain.MkdsspFailed (stderr res);
                   CleanerMain.TryingMinimal])
              [fs1 !! out] _ eq_refl eq_refl)
    as (_ & _ & Hlast & Hruns).
  split; [|split].
  - destruct Hruns as [-> | [c2 ->]]; simpl; lia.
  - done.
  - intros c1 c2 Heq.
    destruct Hruns as [Hr | [c2' Hr]]; rewrite Hr in Heq; [done|].
    injection Heq as <- _. eauto.
Qed.

(** X16. On an input file without coordinate lines (and an output path
    other than the input path) the cleaner script leaves the permissive
    output in [output_file] whatever [mkdssp] says, and runs [mkdssp] once;
    when [mkdssp] rejects that file, the fallback raises and the script
    ends by printing the [ValueError] of [clean_pdb_minimal]. *)
Theorem cleaner_main_without_coordinates a0 inp out rest fs content saved :
  inp ≠ out →
  fs !! inp = Some content →
  coordinate_lines (readlines content) = [] →
  parse_and_save content = Returned saved →
  let text := writelines (RobustPdbCleaner.clean_pdb_for_mkdssp_lines
                            (readlines saved)) in
  let r := main (a0 :: inp :: out :: rest) fs in
  CleanerMain.files r = <[out := text]> fs
  ∧ CleanerMain.mkdssp_runs r = [Some text]
  ∧ (∀ res, mkdssp (Some text) = Returned res → returncode res ≠ 0%Z →
       last (CleanerMain.printed r)
       = Some (CleanerMain.Error "ValueError"
                 "No ATOM records found in PDB file!")).
Proof.
  intros Hne Hin Hc Hsave text r. subst text r.
  unfold CleanerMain.main, CleanerMain.clean_pdb_for_mkdssp.
  rewrite Hin, Hsave. cbn zeta. rewrite lookup_insert_eq, insert_insert_eq.
  rewrite lookup_insert_eq.
  set (text := writelines _). set (fs1 := <[out:=text]> fs).
  assert (CleanerMain.clean_pdb_minimal fs1 inp out
          = Threw "ValueError" "No ATOM records found in PDB file!") as Hmin.
  { unfold CleanerMain.clean_pdb_minimal. subst fs1.
    rewrite lookup_insert_ne by done. rewrite Hin.
    unfold RobustPdbCleaner.clean_pdb_minimal.
    by rewrite clean_pdb_minimal_lines_eq, Hc. }
  destruct (mkdssp (Some text)) as [res|c m] eqn:Hrun.
  2: { simpl. repeat split; [done..|]. by intros res [=]. }
  destruct (Z.eqb (returncode res) 0) eqn:Hrc.
  { simpl. repeat split; [done..|]. intros res' [= <-] Hnz.
    by apply Z.eqb_eq in Hrc. }
  unfold CleanerMain.fallback. rewrite Hmin. simpl.
  split; [done|]. split; [done|]. intros _ _ _. reflexivity.
Qed.

End CleanerMainFacts.

Lemma cleaner_main_touches_only_output_witness :
  CleanerMain.files
    (CleanerMain.main ToolSamples.save_as_is ToolSamples.mkdssp_rejects
       ["robust_pdb_cleaner.py"; "in.pdb"] ToolSamples.one_file)
  = ToolSamples.one_file
  ∧ CleanerMain.files
      (CleanerMain.main ToolSamples.save_as_is ToolSamples.mkdssp_rejects
         ["robust_pdb_cleaner.py"; "in.pdb"; "out.pdb"] ToolSamples.one_file)
      !! "in.pdb"
    = ToolSamples.one_file !! "in.pdb".
Proof.
  split.
  - apply (proj1 (proj2 (cleaner_main_touches_only_output
                           ToolSamples.save_as_is ToolSamples.mkdssp_rejects
                           ["robust_pdb_cleaner.py"; "in.pdb"]
                           ToolSamples.one_file))).
    simpl. lia.
  - apply (proj2 (proj2 (cleaner_main_touches_only_output
                           ToolSamples.save_as_is ToolSamples.mkdssp_rejects
                           ["robust_pdb_cleaner.py"; "in.pdb"; "out.pdb"]
                           ToolSamples.one_file))).
    discriminate.
Defined.

Lemma cleaner_main_mkdssp_runs_witness :
  last (CleanerMain.mkdssp_runs
          (CleanerMain.main ToolSamples.save_as_is ToolSamples.mkdssp_rejects
             ["robust_pdb_cleaner.py"; "in.pdb"; "out.pdb"]
             ToolSamples.one_file))
  = Some (CleanerMain.files
            (CleanerMain.main ToolSamples.save_as_is ToolSamples.mkdssp_rejects
               ["robust_pdb_cleaner.py"; "in.pdb"; "out.pdb"]
               ToolSamples.one_file) !! "out.pdb").
Proof.
  apply (proj1 (proj2 (cleaner_main_mkdssp_runs
                         ToolSamples.save_as_is ToolSamples.mkdssp_rejects
                         "robust_pdb_cleaner.py" "in.pdb" "out.pdb" []
                         ToolSamples.one_file))).
  discriminate.
Defined.

Lemma cleaner_main_without_coordinates_witness :
  last (CleanerMain.printed
          (CleanerMain.main ToolSamples.save_as_is ToolSamples.mkdssp_rejects
             ["robust_pdb_cleaner.py"; "in.pdb"; "out.pdb"]
             ToolSamples.one_file))
  = Some (CleanerMain.Error "ValueError" "No ATOM records found in PDB file!").
Proof.
  refine (proj2 (proj2 (cleaner_main_without_coordinates
                          ToolSamples.save_as_is ToolSamples.mkdssp_rejects
                          "robust_pdb_cleaner.py" "in.pdb" "out.pdb" []
                          ToolSamples.one_file Samples.remark Samples.remark
                          _ eq_refl eq_refl eq_refl))
            _ eq_refl _); discriminate.
Defined.

(** ** The diagnostic script *)

Lemma preview_loop_spec (rstrip : string → string) i lines :
  DebugDssp.preview_loop rstrip i lines =
  imap (λ j line, DebugDssp.PreviewLine (i + j + 1) (rstrip line))
    (take (10 - i) lines).
Proof.
  revert i. induction lines as [|line rest IH]; intros i.
  { by rewrite take_nil. }
  cbn [DebugDssp.preview_loop]. destruct (Nat.leb 10 i) eqn:Hi.
  - apply Nat.leb_le in Hi. by replace (10 - i) with 0 by lia.
  - apply Nat.leb_gt in Hi.
    replace (10 - i) with (S (10 - S i)) by lia.
    rewrite firstn_cons, imap_cons, Nat.add_0_r. f_equal. rewrite IH.
    apply imap_ext. intros j x _. simpl. f_equal. lia.
Qed.

(** X17. The file preview of the diagnostic script prints the first ten
    lines of the file, or all of them when there are fewer, each
    right-stripped, in file order and numbered from 1. *)
Theorem preview_prints_first_ten (rstrip : string → string) lines :
  DebugDssp.preview_loop rstrip 0 lines =
    imap (λ j line, DebugDssp.PreviewLine (j + 1) (rstrip line)) (take 10 lines)
  ∧ length (DebugDssp.preview_loop rstrip 0 lines) = Nat.min 10 (length lines).
Proof.
  rewrite preview_loop_spec. split; [done|].
  by rewrite length_imap, length_take.
Qed.

(** X18. [test_pdb_file] starts no program and previews nothing for a
    missing file. When reading the file for the preview raises before an
    eleventh line is reached (a file that does not decode), that
    exception ends the function and no program is started. Otherwise it
    runs [mkdssp] once on the file, then calls [DSSP] with ['dssp'] at
    most once and with ['mkdssp'] only after the ['dssp'] call raised;
    when the structure cannot be parsed [DSSP] is not called at all, and
    the second attempt is reported as failed with the [UnboundLocalError]
    of [model]. *)
Theorem test_pdb_file_tool_calls {Model : Type}
    (rstrip : string → string)
    (mkdssp : option string → outcome completed_process)
    (get_model : string → outcome Model)
    (DSSP : Model → string → string → outcome nat)
    (unbound_model : string)
    (iterate : string → list string * option (string * string))
    (fs : gmap string string) (pdb_path : string) :
  let r := DebugDssp.test_pdb_file rstrip mkdssp get_model DSSP unbound_model
             iterate fs pdb_path in
  (fs !! pdb_path = None →
   r = {| DebugDssp.printed :=
            [DebugDssp.Banner pdb_path; DebugDssp.NotFound pdb_path];
          DebugDssp.calls := []; DebugDssp.raised := None |})
  ∧ (∀ bytes e, fs !! pdb_path = Some bytes →
       (length (iterate bytes).1 ≤ 10)%nat → (iterate bytes).2 = Some e →
       DebugDssp.calls r = [] ∧ DebugDssp.raised r = Some e
       ∧ DebugDssp.printed r
         = [DebugDssp.Banner pdb_path; DebugDssp.PreviewTitle]
           ++ DebugDssp.preview_loop rstrip 0 (iterate bytes).1)
  ∧ (∀ bytes, fs !! pdb_path = Some bytes →
       (11 ≤ length (iterate bytes).1)%nat ∨ (iterate bytes).2 = None →
       DebugDssp.raised r = None
       ∧ ∃ dssp_calls,
           DebugDssp.calls r = DebugDssp.RunMkdssp (Some bytes) :: dssp_calls
           ∧ (dssp_calls = [] ∨ dssp_calls = [DebugDssp.CallDSSP "dssp"]
              ∨ dssp_calls = [DebugDssp.CallDSSP "dssp";
                              DebugDssp.CallDSSP "mkdssp"])
           ∧ (∀ c e, get_model bytes = Threw c e →
                dssp_calls = []
                ∧ DebugDssp.MkdsspFailedToo unbound_model
                  ∈ DebugDssp.printed r)
           ∧ (DebugDssp.CallDSSP "mkdssp" ∈ dssp_calls →
              ∃ model c e, get_model bytes = Returned model
                           ∧ DSSP model bytes "dssp" = Threw c e)).
Proof.
  intros r. subst r. unfold DebugDssp.test_pdb_file. split; [|split].
  - by intros ->.
  - intros bytes e -> Hlen He. unfold DebugDssp.preview_raises.
    rewrite (proj2 (Nat.leb_gt 11 _)) by lia. by rewrite He.
  - intros bytes -> Hok.
    assert (DebugDssp.preview_raises (iterate bytes) = None) as ->.
    { unfold DebugDssp.preview_raises.
      destruct (Nat.leb 11 _) eqn:Hleb; [done|].
      apply Nat.leb_gt in Hleb. destruct Hok as [Hok|Hok]; [lia|done]. }
    cbn [DebugDssp.raised DebugDssp.calls DebugDssp.printed].
    split; [done|]. unfold DebugDssp.test_biopython.
    destruct (get_model bytes) as [model|c e] eqn:Hmodel.
    + destruct (DSSP model bytes "dssp") as [n|c e] eqn:Hdssp; simpl.
      * exists [DebugDssp.CallDSSP "dssp"]. split; [done|].
        split; [by right; left|]. split; [done|].
        intros Hin. apply list_elem_of_singleton in Hin. discriminate.
      * exists [DebugDssp.CallDSSP "dssp"; DebugDssp.CallDSSP "mkdssp"].
        split; [done|]. split; [by right; right|]. split; [done|].
        intros _. eauto.
    + exists []. simpl. split; [done|]. split; [by left|]. split.
      * intros c' e' _. split; [done|].
        repeat first [ by apply list_elem_of_here
                     | apply elem_of_cons; right
                     | apply elem_of_app; right ].
      * intros Hin. by apply elem_of_nil in Hin.
Qed.

Lemma test_pdb_file_tool_calls_witness :
  DebugDssp.calls
    (DebugDssp.test_pdb_file (Model := unit) (λ line, line)
       ToolSamples.mkdssp_rejects (λ _, Returned tt)
       (λ _ _ _, Returned 0) EmptyString ToolSamples.iterate_fails
       ToolSamples.one_file "in.pdb") = []
  ∧ DebugDssp.raised
      (DebugDssp.test_pdb_file (Model := unit) (λ line, line)
         ToolSamples.mkdssp_rejects (λ _, Returned tt)
         (λ _ _ _, Returned 0) EmptyString ToolSamples.iterate_all
         ToolSamples.one_file "in.pdb") = None.
Proof.
  split.
  - refine (proj1 (proj1 (proj2 (test_pdb_file_tool_calls (Model := unit)
               (λ line, line) ToolSamples.mkdssp_rejects (λ _, Returned tt)
               (λ _ _ _, Returned 0) EmptyString ToolSamples.iterate_fails
               ToolSamples.one_file "in.pdb"))
             Samples.remark ("UnicodeDecodeError", "invalid start byte")
             eq_refl _ eq_refl)).
    simpl. lia.
  - refine (proj1 (proj2 (proj2 (test_pdb_file_tool_calls (Model := unit)
               (λ line, line) ToolSamples.mkdssp_rejects (λ _, Returned tt)
               (λ _ _ _, Returned 0) EmptyString ToolSamples.iterate_all
               ToolSamples.one_file "in.pdb"))
             Samples.remark eq_refl _)).
    by right.
Defined.

(** ** How a run of the analysis ends *)

(** X19. A run calls the calculator at most once. It stops before the
    configuration is read exactly when no upload sanitized; otherwise a
    configuration that cannot be parsed ends the run with that error and
    without a calculator call, although the cleaned files are in place;
    and with a parsed configuration the calculator is called once, on the
    cleaned directory, and its table or its exception is how the run
    ends. *)
Theorem run_analysis_outcomes {Config Table : Type}
    (parse_config : result Config)
    (calc_all : Config → gmap string string → result Table)
    (uploaded_files : list uploaded_file) :
  let st := process_uploads uploaded_files in
  let good := filter (λ f, sanitizes f = true) uploaded_files in
  let r := run_analysis parse_config calc_all uploaded_files in
  (length (calculator_calls r) ≤ 1)%nat
  ∧ (ending r = Stopped ↔ good = [])
  ∧ input_dir (final r) = input_dir st
  ∧ (∀ e, parse_config = Raise e → good ≠ [] →
       calculator_calls r = [] ∧ ending r = AnalysisError e)
  ∧ (∀ cfg, parse_config = Ok cfg → good ≠ [] →
       calculator_calls r = [input_dir st]
       ∧ ending r = match calc_all cfg (input_dir st) with
                    | Ok df => AnalysisComplete df
                    | Raise e => AnalysisError e
                    end).
Proof.
  intros st good r. subst st good r. unfold run_analysis.
  assert (processed_count (process_uploads uploaded_files)
          = length (filter (λ f, sanitizes f = true) uploaded_files)) as Hcount.
  { unfold process_uploads. by rewrite batch_loop_count. }
  rewrite Hcount.
  destruct (filter _ uploaded_files) as [|g good] eqn:Hgood; simpl.
  { repeat split; try done; lia. }
  destruct parse_config as [cfg|e]; simpl.
  - destruct (calc_all cfg _) as [df|e] eqn:Hcalc; simpl.
    + split; [lia|]. split; [by split|]. split; [done|].
      split; [done|]. intros cfg' [= <-] _. by rewrite Hcalc.
    + split; [lia|]. split; [by split|]. split; [done|].
      split; [done|]. intros cfg' [= <-] _. by rewrite Hcalc.
  - split; [lia|]. split; [by split|]. split; [done|].
    split; [|done]. by intros e' [= <-] _.
Qed.

Lemma run_analysis_outcomes_witness :
  calculator_calls
    (run_analysis (Config := unit) (Table := nat)
       (Raise (ValueError "malformed node or string"))
       (λ _ dir, Ok (size dir))
       [Samples.good1; Samples.empty2; Samples.good3]) = []
  ∧ ending
      (run_analysis (Config := unit) (Table := nat)
         (Raise (ValueError "malformed node or string"))
         (λ _ dir, Ok (size dir))
         [Samples.good1; Samples.empty2; Samples.good3])
    = AnalysisError (ValueError "malformed node or string").
Proof.
  apply (proj1 (proj2 (proj2 (proj2
           (run_analysis_outcomes (Config := unit) (Table := nat)
              (Raise (ValueError "malformed node or string"))
              (λ _ dir, Ok (size dir))
              [Samples.good1; Samples.empty2; Samples.good3]))))
           (ValueError "malformed node or string") eq_refl).
  discriminate.
Defined.

(** ** Where the result guarantee holds *)

Lemma prefix_first a p line :
  String.prefix (String a p) line = true → ∃ rest, line = String a rest.
Proof. intros (rest & -> & _)%prefix_cons_inv. eauto. Qed.

Lemma body_line_cases line :
  PdbIO.body_line line = true →
  is_coordinate line = true
  ∨ (∃ rest, line = String "T" rest)
  ∨ (∃ rest, line = String "M" rest)
  ∨ String.prefix "ENDMDL" line = true.
Proof.
  unfold PdbIO.body_line.
  intros [[[H|H]%orb_true_iff|H]%orb_true_iff|H]%orb_true_iff.
  - by left.
  - right. left. by apply prefix_first in H.
  - right. right. left. by apply prefix_first in H.
  - by repeat right.
Qed.

Lemma ENDMDL_not_end line :
  String.prefix "ENDMDL" line = true → is_end line = false.
Proof.
  intros H.
  apply prefix_cons_inv in H as (r1 & -> & H).
  apply prefix_cons_inv in H as (r2 & -> & H).
  apply prefix_cons_inv in H as (r3 & -> & H).
  apply prefix_cons_inv in H as (r4 & -> & H).
  apply prefix_cons_inv in H as (r5 & -> & H).
  apply prefix_cons_inv in H as (r6 & -> & H).
  reflexivity.
Qed.

Lemma body_line_retained line :
  PdbIO.body_line line = true → is_retained line = true.
Proof.
  unfold PdbIO.body_line.
  intros [[[H|H]%orb_true_iff|H]%orb_true_iff|H]%orb_true_iff.
  - by apply coordinate_is_retained.
  - unfold is_retained, startswith; simpl. rewrite H. by rewrite !orb_true_r.
  - unfold is_retained, startswith; simpl. rewrite H. by rewrite !orb_true_r.
  - unfold is_retained, startswith; simpl. rewrite H. by rewrite !orb_true_r.
Qed.

Lemma body_line_not_header line :
  PdbIO.body_line line = true → is_header line = false.
Proof.
  intros [H|[[r ->]|[[r ->]|H]]]%body_line_cases; try reflexivity.
  - by apply coordinate_not_header.
  - apply prefix_first in H as [r ->]. reflexivity.
Qed.

Lemma body_line_not_end line :
  PdbIO.body_line line = true → is_end line = false.
Proof.
  intros [H|[[r ->]|[[r ->]|H]]]%body_line_cases; try reflexivity.
  - by apply coordinate_not_end.
  - by apply ENDMDL_not_end.
Qed.

(** X20. On the lines [PDBIO.save] writes (ATOM, HETATM, TER, MODEL and
    ENDMDL lines closed by ['END   \n']) with at least one coordinate
    line, the filtering stage of [clean_pdb_for_mkdssp] puts the HEADER
    literal in front and changes nothing else, and the result is a
    Sanitized Document. *)
Theorem permissive_on_saved_structure body :
  Forall (λ line, PdbIO.body_line line = true) body →
  has_coordinates body = true →
  RobustPdbCleaner.clean_pdb_for_mkdssp_lines (body ++ [PdbIO.END_SAVED])
    = HEADER_LINE :: body ++ [PdbIO.END_SAVED]
  ∧ sanitized_document (HEADER_LINE :: body ++ [PdbIO.END_SAVED]) = true.
Proof.
  intros Hbody Hc.
  assert (count is_header body = 0) as Hh.
  { apply count_zero_of_Forall. eapply Forall_impl; [exact Hbody|].
    apply body_line_not_header. }
  assert (count is_end body = 0) as He.
  { apply count_zero_of_Forall. eapply Forall_impl; [exact Hbody|].
    apply body_line_not_end. }
  assert (Forall (λ line, is_retained line = true) (body ++ [PdbIO.END_SAVED]))
    as Hret.
  { apply Forall_app. split; [|by repeat constructor].
    eapply Forall_impl; [exact Hbody|]. apply body_line_retained. }
  split.
  - assert (retained_lines (body ++ [PdbIO.END_SAVED])
            = body ++ [PdbIO.END_SAVED]) as Hkept by by apply filter_all_true.
    rewrite (mkdssp_no_append _ PdbIO.END_SAVED)
      by (rewrite ?kept_lines_retained, ?Hkept, ?last_snoc; done).
    unfold RobustPdbCleaner.add_header. rewrite filter_loop_spec; simpl.
    rewrite Hkept, existsb_count, count_app, Hh. reflexivity.
  - unfold sanitized_document, header_first_and_unique, has_coordinates,
      end_last_and_unique in *.
    rewrite !count_cons, !count_app, !count_cons, !count_nil, Hh, He.
    change (HEADER_LINE :: body ++ [PdbIO.END_SAVED])
      with ((HEADER_LINE :: body) ++ [PdbIO.END_SAVED]).
    rewrite last_snoc.
    change (is_header HEADER_LINE) with true.
    change (is_header PdbIO.END_SAVED) with false.
    change (is_coordinate HEADER_LINE) with false.
    change (is_coordinate PdbIO.END_SAVED) with false.
    change (is_end HEADER_LINE) with false.
    change (is_end PdbIO.END_SAVED) with true.
    cbn [head]. rewrite !Nat.add_0_r, !Nat.add_0_l.
    by destruct (count is_coordinate body).
Qed.

Lemma permissive_on_saved_structure_witness :
  RobustPdbCleaner.clean_pdb_for_mkdssp_lines
    (ToolSamples.saved_chain ++ [PdbIO.END_SAVED])
  = HEADER_LINE :: ToolSamples.saved_chain ++ [PdbIO.END_SAVED]
  ∧ sanitized_document
      (HEADER_LINE :: ToolSamples.saved_chain ++ [PdbIO.END_SAVED]) = true.
Proof.
  apply permissive_on_saved_structure; [|reflexivity].
  by repeat constructor.
Defined.

(** X21. On a text with a coordinate line whose last line is terminated,
    minimal mode succeeds, both implementations write the same file, and
    that file reads back as a Sanitized Document. *)
Theorem minimal_sanitized_when_terminated content :
  newline_terminated (translate_newlines content) = true →
  has_coordinates (readlines content) = true →
  ∃ out,
    App.clean_pdb_for_dssp content = Ok out
    ∧ RobustPdbCleaner.clean_pdb_minimal content = Ok out
    ∧ sanitized_document (readlines out) = true.
Proof.
  intros Hterm Hc%has_coordinates_nonempty.
  assert (∃ out, App.clean_pdb_for_dssp content = Ok out) as [out Hrun].
  { unfold App.clean_pdb_for_dssp. rewrite clean_pdb_for_dssp_lines_eq.
    rewrite bool_decide_eq_false_2 by done. eauto. }
  exists out. split; [done|]. split; [by apply file_minimal_agree|].
  by destruct (clean_pdb_for_dssp_read_back _ _ Hterm Hrun) as (_ & _ & ?).
Qed.

Lemma minimal_sanitized_when_terminated_witness :
  ∃ out,
    App.clean_pdb_for_dssp Samples.crlf_file = Ok out
    ∧ RobustPdbCleaner.clean_pdb_minimal Samples.crlf_file = Ok out
    ∧ sanitized_document (readlines out) = true.
Proof.
  apply minimal_sanitized_when_terminated; reflexivity.
Defined.

